(** * form_designer: a shallow embedding of [form_designer/models.py]

    The module defines four Django models (Form, FormField, FormSubmission,
    FormContent) and a start-up computation of the base classes of the
    synthesized form class.  This development embeds the parts of the module
    that carry logic: the start-up parsing of [FORM_DESIGNER_CLASSES], the
    methods of [FormField] ([clean], [get_choices], [get_type],
    [add_formfield], [formfield]), of [Form] ([form], [process]) and of
    [FormSubmission] ([sorted_data], [formatted_data]).

    Conventions of the embedding.
    - Python text (unicode objects) is [string]: code points 0..255.
    - Exceptions are values of [exn]; a computation that may raise returns
      an [outcome].
    - A Python dict and Django's SortedDict are association lists without
      repeated keys, listed in iteration order; assignment to a present key
      replaces the value in place, assignment to a new key appends.
    - The ORM is a pair of tables (lists of rows); [fields.all()] filters the
      rows of a form and orders them by [Meta.ordering].
    - [ugettext_lazy] is the identity (no translation catalogue is active). *)

From Stdlib Require Import String Ascii List ZArith NArith Arith Bool Lia.
From Stdlib Require Import Permutation Sorted.
Import ListNotations.
Open Scope string_scope.

(* ================================================================== *)
(** * Exceptions and outcomes *)
(* ================================================================== *)

Inductive exn : Type :=
| KeyError (key : string)
| ValueError (msg : string)
| ImportError (module : string)
| AttributeError (attr : string)
| SyntaxError
| ImproperlyConfigured (msg : string)
| ValidationError (msg : string)
| TypeError (msg : string)
| SMTPException.

Inductive outcome (A : Type) : Type :=
| Return (a : A)
| Raise (e : exn).
Arguments Return {A} a.
Arguments Raise {A} e.

Definition bind {A B : Type} (m : outcome A) (k : A -> outcome B) : outcome B :=
  match m with
  | Return a => k a
  | Raise e => Raise e
  end.

Notation "x <- m ;; k" := (bind m (fun x => k))
  (at level 61, m at next level, right associativity).

(* ================================================================== *)
(** * Text *)
(* ================================================================== *)

Module Text.

Definition dquote : ascii := "034"%char.
Definition squote : ascii := "039"%char.
Definition backslash : ascii := "092"%char.
Definition tab : ascii := "009"%char.
Definition lf : ascii := "010"%char.
Definition cr : ascii := "013"%char.

Definition chr (c : ascii) : string := String c EmptyString.

(** The line terminator written [\n] in the source's format strings. *)
Definition nl : string := chr lf.

Definition code (c : ascii) : N := N_of_ascii c.

Fixpoint contains_char (c : ascii) (s : string) : bool :=
  match s with
  | EmptyString => false
  | String d r => Ascii.eqb d c || contains_char c r
  end.

Definition is_empty (s : string) : bool :=
  match s with
  | EmptyString => true
  | String _ _ => false
  end.

Fixpoint mem (k : string) (l : list string) : bool :=
  match l with
  | [] => false
  | x :: r => String.eqb k x || mem k r
  end.

(** [unicode.strip()]: the characters [Py_UNICODE_ISSPACE] accepts among
    the code points below 256. *)
Definition is_unicode_space (c : ascii) : bool :=
  let n := code c in
  ((9 <=? n) && (n <=? 13) || (28 <=? n) && (n <=? 32)
   || (n =? 133) || (n =? 160))%N.

(** Whitespace of byte strings and of [\s] in a pattern compiled without
    the UNICODE flag: space, \t, \n, \v, \f, \r. *)
Definition is_ascii_space (c : ascii) : bool :=
  let n := code c in
  ((9 <=? n) && (n <=? 13) || (n =? 32))%N.

Fixpoint lstrip (sp : ascii -> bool) (s : string) : string :=
  match s with
  | EmptyString => EmptyString
  | String c r => if sp c then lstrip sp r else s
  end.

Fixpoint rstrip (sp : ascii -> bool) (s : string) : string :=
  match s with
  | EmptyString => EmptyString
  | String c r =>
      match rstrip sp r with
      | EmptyString => if sp c then EmptyString else chr c
      | r' => String c r'
      end
  end.

Definition strip_with (sp : ascii -> bool) (s : string) : string :=
  rstrip sp (lstrip sp s).

(** [value.strip()] on a unicode object. *)
Definition strip (s : string) : string := strip_with is_unicode_space s.

(** [s.split(sep)] for a one-character separator: never an empty list. *)
Fixpoint split (sep : ascii) (s : string) : list string :=
  match s with
  | EmptyString => [EmptyString]
  | String c r =>
      if Ascii.eqb c sep then EmptyString :: split sep r
      else match split sep r with
           | [] => [chr c]
           | p :: ps => String c p :: ps
           end
  end.

Definition lower_char (c : ascii) : ascii :=
  let n := code c in
  if ((65 <=? n) && (n <=? 90))%N then ascii_of_N (n + 32) else c.

Fixpoint lower (s : string) : string :=
  match s with
  | EmptyString => EmptyString
  | String c r => String (lower_char c) (lower r)
  end.

Fixpoint filter (keep : ascii -> bool) (s : string) : string :=
  match s with
  | EmptyString => EmptyString
  | String c r => if keep c then String c (filter keep r) else filter keep r
  end.

Fixpoint flat_map (f : ascii -> string) (s : string) : string :=
  match s with
  | EmptyString => EmptyString
  | String c r => f c ++ flat_map f r
  end.

Definition digit (n : nat) : ascii := ascii_of_nat (48 + n).

Fixpoint decimal_aux (fuel n : nat) (acc : string) : string :=
  match fuel with
  | O => acc
  | S fuel' =>
      let acc' := String (digit (n mod 10)) acc in
      match n / 10 with
      | O => acc'
      | q => decimal_aux fuel' q acc'
      end
  end.

(** ['%s' % n] for a non-negative integer. *)
Definition decimal (n : nat) : string := decimal_aux (S n) n EmptyString.

(** [s.rsplit('.', 1)]: the text before and after the last dot. *)
Fixpoint rsplit_dot (s : string) : option (string * string) :=
  match s with
  | EmptyString => None
  | String c r =>
      match rsplit_dot r with
      | Some (m, k) => Some (String c m, k)
      | None => if Ascii.eqb c "." then Some (EmptyString, r) else None
      end
  end.

(** Every character of the text satisfies [p]. *)
Fixpoint all_chars (p : ascii -> bool) (s : string) : bool :=
  match s with
  | EmptyString => true
  | String c r => p c && all_chars p r
  end.

Fixpoint last_char (s : string) : option ascii :=
  match s with
  | EmptyString => None
  | String c EmptyString => Some c
  | String _ r => last_char r
  end.

End Text.

(* ================================================================== *)
(** * Ordered dictionaries *)
(* ================================================================== *)

(** A dict in iteration order.  [SortedDict] keeps its keys in a [keyOrder]
    list to which [__setitem__] appends a key that is not yet present; the
    plain dicts of the module are iterated in the order of insertion. *)
Module Dict.

Definition t (V : Type) : Type := list (string * V).

Definition empty {V : Type} : t V := [].

Fixpoint get {V : Type} (k : string) (d : t V) : option V :=
  match d with
  | [] => None
  | (k', v) :: r => if String.eqb k k' then Some v else get k r
  end.

Definition mem {V : Type} (k : string) (d : t V) : bool :=
  match get k d with
  | Some _ => true
  | None => false
  end.

(** [d[k] = v] *)
Fixpoint set {V : Type} (k : string) (v : V) (d : t V) : t V :=
  match d with
  | [] => [(k, v)]
  | (k', v') :: r =>
      if String.eqb k k' then (k, v) :: r else (k', v') :: set k v r
  end.

Definition keys {V : Type} (d : t V) : list string := map fst d.

(** [d[k]] *)
Definition item {V : Type} (k : string) (d : t V) : outcome V :=
  match get k d with
  | Some v => Return v
  | None => Raise (KeyError k)
  end.

(** The dict built by a display [{k1: v1, ...}] or by successive
    assignments, left to right. *)
Definition of_pairs {V : Type} (kvs : list (string * V)) : t V :=
  fold_left (fun d kv => set (fst kv) (snd kv) d) kvs empty.

(** No key is listed twice. *)
Definition wf {V : Type} (d : t V) : Prop := NoDup (keys d).

End Dict.


(* ================================================================== *)
(** * Python values, [repr] and [eval] *)
(* ================================================================== *)

(** The values the fields of the type registry clean to: [CharField],
    [EmailField] and [ChoiceField] give unicode text, [BooleanField] a bool,
    [MultipleChoiceField] a list of unicode texts; [dict.get] adds [None]. *)
Inductive pyvalue : Type :=
| PyNone
| PyBool (b : bool)
| PyUnicode (s : string)
| PyList (items : list string).

(** [form.cleaned_data], and what [eval(self.data)] gives back. *)
Definition pydict : Type := Dict.t pyvalue.

Module Repr.
Import Text.

Definition hexdigit (n : N) : ascii :=
  if (n <? 10)%N then ascii_of_N (48 + n) else ascii_of_N (87 + n).

(** The two lower-case hex digits of [\xhh]. *)
Definition hex2 (c : ascii) : string :=
  String (hexdigit (code c / 16)) (chr (hexdigit (code c mod 16))).

(** The quote of a unicode literal: a double quote when the text holds a
    single quote and no double quote, a single quote otherwise. *)
Definition quote_for (s : string) : ascii :=
  if contains_char squote s && negb (contains_char dquote s)
  then dquote else squote.

(** One character of a unicode literal delimited by [q]. *)
Definition escape_char (q c : ascii) : string :=
  if Ascii.eqb c q || Ascii.eqb c backslash then String backslash (chr c)
  else if Ascii.eqb c tab then String backslash "t"
  else if Ascii.eqb c lf then String backslash "n"
  else if Ascii.eqb c cr then String backslash "r"
  else if ((code c <? 32) || (127 <=? code c))%N
       then String backslash (String "x" (hex2 c))
  else chr c.

(** [repr(u)] for a unicode object. *)
Definition repr_unicode (s : string) : string :=
  let q := quote_for s in
  String "u" (String q (flat_map (escape_char q) s ++ chr q)).

(** [', '.join(pieces)] *)
Fixpoint join_comma (pieces : list string) : string :=
  match pieces with
  | [] => EmptyString
  | [p] => p
  | p :: r => p ++ ", " ++ join_comma r
  end.

Definition repr_list (items : list string) : string :=
  "[" ++ join_comma (map repr_unicode items) ++ "]".

Definition repr_value (v : pyvalue) : string :=
  match v with
  | PyNone => "None"
  | PyBool true => "True"
  | PyBool false => "False"
  | PyUnicode s => repr_unicode s
  | PyList items => repr_list items
  end.

Definition repr_entry (kv : string * pyvalue) : string :=
  repr_unicode (fst kv) ++ ": " ++ repr_value (snd kv).

(** [repr(d)] for a dict with unicode keys. *)
Definition repr_dict (d : pydict) : string :=
  "{" ++ join_comma (map repr_entry d) ++ "}".

(** [unicode(v)], what [%s] substitutes for a value. *)
Definition str_value (v : pyvalue) : string :=
  match v with
  | PyUnicode s => s
  | _ => repr_value v
  end.

End Repr.

(** [eval] on the expressions [repr] writes for a [pydict]: a dict display
    whose keys are unicode literals and whose values are [None], [True],
    [False], unicode literals or list displays of unicode literals.  Blanks
    between tokens are skipped and a trailing comma is accepted, as the
    Python grammar has them.  Escapes of a literal: backslash, the two
    quotes, [\t], [\n], [\r] and [\xhh].  Any other text is a [SyntaxError]
    here. *)
Module Eval.
Import Text.

Fixpoint skip_spaces (s : string) : string :=
  match s with
  | String " " r => skip_spaces r
  | _ => s
  end.

Definition hex_value (c : ascii) : option N :=
  let n := code c in
  if ((48 <=? n) && (n <=? 57))%N then Some (n - 48)%N
  else if ((97 <=? n) && (n <=? 102))%N then Some (n - 87)%N
  else if ((65 <=? n) && (n <=? 70))%N then Some (n - 55)%N
  else None.

Definition cons_char (c : ascii) (r : option (string * string))
  : option (string * string) :=
  match r with
  | Some (s, rest) => Some (String c s, rest)
  | None => None
  end.

(** The body of a literal opened by [q]: the text up to the closing quote,
    and what follows it. *)
Fixpoint parse_body (q : ascii) (s : string) : option (string * string) :=
  match s with
  | EmptyString => None
  | String c r =>
      if Ascii.eqb c q then Some (EmptyString, r)
      else if Ascii.eqb c backslash then
        match r with
        | EmptyString => None
        | String e r1 =>
            if Ascii.eqb e backslash || Ascii.eqb e squote || Ascii.eqb e dquote
            then cons_char e (parse_body q r1)
            else if Ascii.eqb e "t" then cons_char tab (parse_body q r1)
            else if Ascii.eqb e "n" then cons_char lf (parse_body q r1)
            else if Ascii.eqb e "r" then cons_char cr (parse_body q r1)
            else if Ascii.eqb e "x" then
              match r1 with
              | String h (String l r2) =>
                  match hex_value h, hex_value l with
                  | Some a, Some b =>
                      cons_char (ascii_of_N (16 * a + b)) (parse_body q r2)
                  | _, _ => None
                  end
              | _ => None
              end
            else None
        end
      else if Ascii.eqb c lf then None
      else cons_char c (parse_body q r)
  end.

Definition parse_unicode (s : string) : option (string * string) :=
  match s with
  | String "u" (String q r) =>
      if Ascii.eqb q squote || Ascii.eqb q dquote then parse_body q r else None
  | _ => None
  end.

(** The items of a list display after its opening bracket. *)
Fixpoint parse_items (fuel : nat) (s : string) : option (list string * string) :=
  match fuel with
  | O => None
  | S fuel' =>
      match skip_spaces s with
      | String "]" r => Some ([], r)
      | s1 =>
          match parse_unicode s1 with
          | None => None
          | Some (x, r) =>
              match skip_spaces r with
              | String "," r1 =>
                  match parse_items fuel' r1 with
                  | Some (xs, r2) => Some (x :: xs, r2)
                  | None => None
                  end
              | String "]" r1 => Some ([x], r1)
              | _ => None
              end
          end
      end
  end.

Definition parse_value (fuel : nat) (s : string) : option (pyvalue * string) :=
  match s with
  | String "N" (String "o" (String "n" (String "e" r))) => Some (PyNone, r)
  | String "T" (String "r" (String "u" (String "e" r))) => Some (PyBool true, r)
  | String "F" (String "a" (String "l" (String "s" (String "e" r)))) =>
      Some (PyBool false, r)
  | String "[" r =>
      match parse_items fuel r with
      | Some (xs, r1) => Some (PyList xs, r1)
      | None => None
      end
  | _ =>
      match parse_unicode s with
      | Some (x, r) => Some (PyUnicode x, r)
      | None => None
      end
  end.

(** The entries of a dict display after its opening brace. *)
Fixpoint parse_entries (fuel : nat) (s : string)
  : option (list (string * pyvalue) * string) :=
  match fuel with
  | O => None
  | S fuel' =>
      match skip_spaces s with
      | String "}" r => Some ([], r)
      | s1 =>
          match parse_unicode s1 with
          | None => None
          | Some (k, r) =>
              match skip_spaces r with
              | String ":" r1 =>
                  match parse_value fuel' (skip_spaces r1) with
                  | None => None
                  | Some (v, r2) =>
                      match skip_spaces r2 with
                      | String "," r3 =>
                          match parse_entries fuel' r3 with
                          | Some (kvs, r4) => Some ((k, v) :: kvs, r4)
                          | None => None
                          end
                      | String "}" r3 => Some ([(k, v)], r3)
                      | _ => None
                      end
                  end
              | _ => None
              end
          end
      end
  end.

(** [eval(text)]: the dict the display denotes; a key written twice keeps
    its first position and its last value. *)
Definition python_eval (text : string) : outcome pydict :=
  match skip_spaces text with
  | String "{" r =>
      match parse_entries (S (String.length text)) r with
      | Some (kvs, rest) =>
          match skip_spaces rest with
          | EmptyString => Return (Dict.of_pairs kvs)
          | _ => Raise SyntaxError
          end
      | None => Raise SyntaxError
      end
  | _ => Raise SyntaxError
  end.

End Eval.

(* ================================================================== *)
(** * Library functions the module calls *)
(* ================================================================== *)

(** [django.template.defaultfilters.slugify]:
    NFKD-normalize and keep the ASCII part; delete what is neither a word
    character, whitespace nor a hyphen; strip; lower-case; replace every run
    of hyphens and whitespace by one hyphen. *)
Module Slug.
Import Text.

Definition between (lo hi n : N) : bool := ((lo <=? n) && (n <=? hi))%N.

(** [unicodedata.normalize('NFKD', c).encode('ascii', 'ignore')] for one
    code point below 256: an ASCII character is kept, an accented letter
    gives its base letter, a compatibility character its ASCII expansion,
    anything else nothing. *)
Definition nfkd_ascii (c : ascii) : string :=
  let n := code c in
  if (n <? 128)%N then chr c
  else if (n =? 160)%N || (n =? 168)%N || (n =? 175)%N || (n =? 180)%N
          || (n =? 184)%N then " "
  else if (n =? 170)%N then "a"
  else if (n =? 186)%N then "o"
  else if (n =? 178)%N then "2"
  else if (n =? 179)%N then "3"
  else if (n =? 185)%N then "1"
  else if (n =? 188)%N then "14"
  else if (n =? 189)%N then "12"
  else if (n =? 190)%N then "34"
  else if between 192 197 n then "A"
  else if (n =? 199)%N then "C"
  else if between 200 203 n then "E"
  else if between 204 207 n then "I"
  else if (n =? 209)%N then "N"
  else if between 210 214 n then "O"
  else if between 217 220 n then "U"
  else if (n =? 221)%N then "Y"
  else if between 224 229 n then "a"
  else if (n =? 231)%N then "c"
  else if between 232 235 n then "e"
  else if between 236 239 n then "i"
  else if (n =? 241)%N then "n"
  else if between 242 246 n then "o"
  else if between 249 252 n then "u"
  else if (n =? 253)%N || (n =? 255)%N then "y"
  else EmptyString.

(** [\w] without the UNICODE flag. *)
Definition is_word (c : ascii) : bool :=
  let n := code c in
  between 48 57 n || between 65 90 n || between 97 122 n || (n =? 95)%N.

(** The class [[\w\s-]] whose complement the first substitution deletes. *)
Definition kept (c : ascii) : bool :=
  is_word c || is_ascii_space c || Ascii.eqb c "-".

(** The class [[-\s]] of the second substitution. *)
Definition is_separator (c : ascii) : bool :=
  Ascii.eqb c "-" || is_ascii_space c.

(** [re.sub('[-\s]+', '-', s)]; [in_run] says the previous character was
    part of a run already replaced. *)
Fixpoint hyphenate (in_run : bool) (s : string) : string :=
  match s with
  | EmptyString => EmptyString
  | String c r =>
      if is_separator c
      then if in_run then hyphenate true r else String "-" (hyphenate true r)
      else String c (hyphenate false r)
  end.

Definition slugify (value : string) : string :=
  let value := flat_map nfkd_ascii value in
  let value := lower (strip_with is_ascii_space (filter kept value)) in
  hyphenate false value.

End Slug.

(** [django.forms]: the field classes of the type registry and what their
    constructors keep of the keyword arguments. *)
Module Forms.

Inductive field_class : Type :=
| CharField
| EmailField
| BooleanField
| ChoiceField
| MultipleChoiceField.

Definition field_class_eqb (a b : field_class) : bool :=
  match a, b with
  | CharField, CharField | EmailField, EmailField
  | BooleanField, BooleanField | ChoiceField, ChoiceField
  | MultipleChoiceField, MultipleChoiceField => true
  | _, _ => false
  end.

(** The field class a class derives from, below [Field]. *)
Definition base (c : field_class) : option field_class :=
  match c with
  | EmailField => Some CharField
  | MultipleChoiceField => Some ChoiceField
  | _ => None
  end.

Definition issubclass (c target : field_class) : bool :=
  field_class_eqb c target
  || match base c with
     | Some b => field_class_eqb b target
     | None => false
     end.

Inductive widget : Type :=
| Textarea
| RadioSelect.

(** Keyword arguments of a field constructor; [None] is an argument that
    is not passed. *)
Record kwargs : Type := {
  kw_label : option string;
  kw_required : option bool;
  kw_choices : option (list (string * string));
  kw_help_text : option string;
  kw_widget : option widget
}.


Definition or_else {A : Type} (a b : option A) : option A :=
  match a with
  | Some _ => a
  | None => b
  end.

(** [dict(defaults, **given)]: a given argument wins. *)
Definition merge (defaults given : kwargs) : kwargs :=
  {| kw_label := or_else (kw_label given) (kw_label defaults);
     kw_required := or_else (kw_required given) (kw_required defaults);
     kw_choices := or_else (kw_choices given) (kw_choices defaults);
     kw_help_text := or_else (kw_help_text given) (kw_help_text defaults);
     kw_widget := or_else (kw_widget given) (kw_widget defaults) |}.

(** A constructed field.  [widget = None] is the class's default widget. *)
Record field : Type := {
  class : field_class;
  widget_of : option widget;
  label : option string;
  required : bool;
  choices : list (string * string);
  help_text : string
}.

Definition from_option {A : Type} (d : A) (o : option A) : A :=
  match o with
  | Some a => a
  | None => d
  end.

(** A call of the constructor of [cls] with the keyword arguments [kw]:
    [required] defaults to [True], [choices] to [()],
    [help_text] to the empty text; only the choice fields take [choices]. *)
Definition construct (cls : field_class) (kw : kwargs) : outcome field :=
  match kw_choices kw, issubclass cls ChoiceField with
  | Some _, false =>
      Raise (TypeError "__init__() got an unexpected keyword argument 'choices'")
  | _, _ =>
      Return {| class := cls;
                widget_of := kw_widget kw;
                label := kw_label kw;
                required := from_option true (kw_required kw);
                choices := from_option [] (kw_choices kw);
                help_text := from_option EmptyString (kw_help_text kw) |}
  end.

(** [curry(cls, **defaults)] *)
Definition curry (cls : field_class) (defaults : kwargs)
  : kwargs -> outcome field :=
  fun given => construct cls (merge defaults given).

(** [isinstance(f, cls)] *)
Definition isinstance (f : field) (cls : field_class) : bool :=
  issubclass (class f) cls.

End Forms.

(** [django.db.models.fields.BLANK_CHOICE_DASH] *)
Definition BLANK_CHOICE_DASH : list (string * string) := [("", "---------")].

(* ================================================================== *)
(** * Settings and the base classes of the synthesized form class *)
(* ================================================================== *)

(** A class object: its dotted name, the names of its proper ancestors
    ([cls.__mro__[1:]]) and the names of its metaclass and the metaclass's
    ancestors ([type(cls).__mro__]). *)
Record pyclass : Type := {
  cls_name : string;
  cls_ancestors : list string;
  cls_type : list string
}.

(** [django.forms.Form] *)
Definition forms_Form : pyclass :=
  {| cls_name := "django.forms.Form";
     cls_ancestors := ["django.forms.BaseForm"; "object"];
     cls_type := ["django.forms.forms.DeclarativeFieldsMetaclass"; "type"; "object"] |}.

(** [issubclass(c, target)] *)
Definition class_issubclass (c target : pyclass) : bool :=
  String.eqb (cls_name c) (cls_name target)
  || Text.mem (cls_name target) (cls_ancestors c).

(** [isinstance(c, target)] for a class object [c]: whether [target] is
    among the classes of [c]'s own class. *)
Definition class_isinstance (c target : pyclass) : bool :=
  Text.mem (cls_name target) (cls_type c).

(** [isinstance(c, type)] *)
Definition is_type (c : pyclass) : bool := Text.mem "type" (cls_type c).

(** An element of [settings.FORM_DESIGNER_CLASSES]. *)
Inductive class_spec : Type :=
| SpecClass (c : pyclass)
| SpecPath (path : string)
| SpecOther.

(** [sys.modules] after an import: module name to attributes. *)
Definition modules : Type := Dict.t (Dict.t pyclass).

Record settings : Type := {
  FORM_DESIGNER_CLASSES : option (list class_spec);
  FORM_DESIGNER_PASS_REQUEST : option bool;
  FORM_DESIGNER_HIDDEN_FIELDS : option (list string);
  DEFAULT_FROM_EMAIL : string
}.

(** One element of the tuple: lines 24-33. *)
Definition resolve_class (env : modules) (form_class : class_spec)
  : outcome pyclass :=
  match form_class with
  | SpecClass c =>
      if is_type c then Return c
      else Raise (ImproperlyConfigured
        "FORM_DESIGNER_CLASSES must be a tuple of either classes or class import path strings.")
  | SpecPath path =>
      match Text.rsplit_dot path with
      | None => Raise (ValueError "need more than 1 value to unpack")
      | Some (module, klass) =>
          match Dict.get module env with
          | None => Raise (ImportError module)
          | Some attrs =>
              match Dict.get klass attrs with
              | None => Raise (AttributeError klass)
              | Some c => Return c
              end
          end
      end
  | SpecOther =>
      Raise (ImproperlyConfigured
        "FORM_DESIGNER_CLASSES must be a tuple of either classes or class import path strings.")
  end.

(** The loop of lines 23-35: the classes parsed so far and the flag. *)
Fixpoint parse_classes (env : modules) (specs : list class_spec)
    (FORM_CLASSES : list pyclass) (form_subclassed : bool)
  : outcome (list pyclass * bool) :=
  match specs with
  | [] => Return (FORM_CLASSES, form_subclassed)
  | form_class :: rest =>
      c <- resolve_class env form_class ;;
      parse_classes env rest (FORM_CLASSES ++ [c])%list
        (form_subclassed || class_isinstance c forms_Form)
  end.

(** Lines 20-41. *)
Definition FORM_CLASSES (conf : settings) (env : modules)
  : outcome (list pyclass) :=
  match FORM_DESIGNER_CLASSES conf with
  | Some specs =>
      r <- parse_classes env specs [] false ;;
      if negb (snd r) then Return (fst r ++ [forms_Form])%list else Return (fst r)
  | None => Return [forms_Form]
  end.

(** The reading of the comments on lines 34 and 37: the generic base is
    added when no parsed class inherits from it. *)
Definition FORM_CLASSES_documented (classes : list pyclass) : list pyclass :=
  if existsb (fun c => class_issubclass c forms_Form) classes
  then classes else (classes ++ [forms_Form])%list.

Definition FORM_TAKES_REQUEST (conf : settings) : bool :=
  Forms.from_option false (FORM_DESIGNER_PASS_REQUEST conf).

Definition HIDDEN_FIELDS (conf : settings) : list string :=
  Forms.from_option [] (FORM_DESIGNER_HIDDEN_FIELDS conf).

(* ================================================================== *)
(** * FormField *)
(* ================================================================== *)

Module FormField.

(** The values of the [type] column: the first components of
    [FIELD_TYPES], to which the column's [choices] restrict it. *)
Inductive field_type : Type :=
| text
| email
| longtext
| checkbox
| select
| radio
| multiple_select.

(** The text stored in the column. *)
Definition tag (ty : field_type) : string :=
  match ty with
  | text => "text"
  | email => "email"
  | longtext => "longtext"
  | checkbox => "checkbox"
  | select => "select"
  | radio => "radio"
  | multiple_select => "multiple-select"
  end.

Definition with_required (b : bool) : Forms.kwargs :=
  {| Forms.kw_label := None; Forms.kw_required := Some b;
     Forms.kw_choices := None; Forms.kw_help_text := None;
     Forms.kw_widget := None |}.

Definition with_widget (w : Forms.widget) : Forms.kwargs :=
  {| Forms.kw_label := None; Forms.kw_required := None;
     Forms.kw_choices := None; Forms.kw_help_text := None;
     Forms.kw_widget := Some w |}.

(** Tag, label and constructor of each type. *)
Definition FIELD_TYPES
  : list (string * string * (Forms.kwargs -> outcome Forms.field)) :=
  [ ("text", "text", Forms.construct Forms.CharField);
    ("email", "e-mail address", Forms.construct Forms.EmailField);
    ("longtext", "long text",
     Forms.curry Forms.CharField (with_widget Forms.Textarea));
    ("checkbox", "checkbox",
     Forms.curry Forms.BooleanField (with_required false));
    ("select", "select", Forms.curry Forms.ChoiceField (with_required false));
    ("radio", "radio",
     Forms.curry Forms.ChoiceField (with_widget Forms.RadioSelect));
    ("multiple-select", "multiple select",
     Forms.construct Forms.MultipleChoiceField) ].

(** A row of the table.  [form] is the key of the owning form. *)
Record t : Type := {
  id : nat;
  form : nat;
  ordering : Z;
  title : string;
  name : string;
  type : field_type;
  choices : string;
  help_text : string;
  is_required : bool
}.

(** [Meta.ordering = ['ordering', 'id']] *)
Definition precedes (a b : t) : bool :=
  (ordering a <? ordering b)%Z
  || (ordering a =? ordering b)%Z && (id a <=? id b)%nat.

Fixpoint insert_row (r : t) (rows : list t) : list t :=
  match rows with
  | [] => [r]
  | x :: rest => if precedes r x then r :: rows else x :: insert_row r rest
  end.

Definition order_by_meta (rows : list t) : list t :=
  fold_right insert_row [] rows.

(** [form.fields.all()]: the rows of the form with key [form_pk], in the
    model's default order. *)
Definition fields_all (table : list t) (form_pk : nat) : list t :=
  order_by_meta (List.filter (fun r => (form r =? form_pk)%nat) table).

Definition get_type (self : t) (kw : Forms.kwargs) : outcome Forms.field :=
  let types := map (fun r => (fst (fst r), snd r)) FIELD_TYPES in
  constructor <- Dict.item (tag (type self)) types ;;
  constructor kw.


Definition get_tuple (value : string) : string * string :=
  (Slug.slugify (Text.strip value), Text.strip value).

Definition get_choices (self : t) : list (string * string) :=
  let choices := map get_tuple (Text.split "," (choices self)) in
  if negb (is_required self) && String.eqb (tag (type self)) "select"
  then (BLANK_CHOICE_DASH ++ choices)%list
  else choices.

Definition formfield (self : t) : outcome Forms.field :=
  let kwargs :=
    {| Forms.kw_label := Some (title self);
       Forms.kw_required := Some (is_required self);
       Forms.kw_choices :=
         if negb (Text.is_empty (choices self))
         then Some (get_choices self) else None;
       Forms.kw_help_text :=
         if negb (Text.is_empty (help_text self))
         then Some (help_text self) else None;
       Forms.kw_widget := None |} in
  get_type self kwargs.

(** [fields[self.name] = self.formfield()]; the [form] argument is not
    used by the body. *)
Definition add_formfield {F : Type} (self : t) (fields : Dict.t Forms.field)
    (form : F) : outcome (Dict.t Forms.field) :=
  f <- formfield self ;;
  Return (Dict.set (name self) f fields).

End FormField.

(* ================================================================== *)
(** * FormSubmission *)
(* ================================================================== *)

Module FormSubmission.

Record t : Type := {
  id : nat;
  submitted : Z;
  form : nat;
  data : string;
  path : string
}.

(** The first loop of [sorted_data]: one assignment per current field. *)
Fixpoint by_title (fields : list FormField.t) (data_dict : pydict)
    (data : Dict.t pyvalue) (field_names : list string)
  : Dict.t pyvalue * list string :=
  match fields with
  | [] => (data, field_names)
  | field :: rest =>
      by_title rest data_dict
        (Dict.set (FormField.title field)
           (Forms.from_option PyNone
              (Dict.get (FormField.name field) data_dict)) data)
        (field_names ++ [FormField.name field])%list
  end.

(** The second loop: the stored keys that name no current field. *)
Fixpoint append_extra (entries : list (string * pyvalue))
    (field_names : list string) (data : Dict.t pyvalue) : Dict.t pyvalue :=
  match entries with
  | [] => data
  | (field_name, value) :: rest =>
      append_extra rest field_names
        (if negb (Text.mem field_name field_names)
         then Dict.set field_name value data else data)
  end.

(** The two loops, from the empty [SortedDict] and the empty list of
    names. *)
Definition sorted_items (fields : list FormField.t) (data_dict : pydict)
  : Dict.t pyvalue :=
  let st := by_title fields data_dict Dict.empty [] in
  append_extra data_dict (snd st) (fst st).

(** [sorted_data()], with the default [include=()] of its call sites in
    the module: none of the four trailing tests on [include] adds a key.
    [table] is the FormField table the query [self.form.fields.all()]
    reads. *)
Definition sorted_data (table : list FormField.t) (self : t)
  : outcome (Dict.t pyvalue) :=
  data_dict <- Eval.python_eval (data self) ;;
  Return (sorted_items (FormField.fields_all table (form self)) data_dict).

(** The loop of [formatted_data] over the items of the sorted data. *)
Fixpoint format_items (hidden : list string) (html : bool)
    (items : list (string * pyvalue)) (formatted : string) : string :=
  match items with
  | [] => formatted
  | (key, value) :: rest =>
      format_items hidden html rest
        (if negb (Text.mem key hidden) then
           if html then
             formatted ++ "<dt>" ++ key ++ "</dt><dd>"
               ++ Repr.str_value value ++ "</dd>" ++ Text.nl
           else
             formatted ++ key ++ ": " ++ Repr.str_value value ++ Text.nl
         else formatted)
  end.

Definition formatted_data (conf : settings) (table : list FormField.t)
    (self : t) (html : bool) : outcome string :=
  items <- sorted_data table self ;;
  let formatted := format_items (HIDDEN_FIELDS conf) html items EmptyString in
  Return (if negb html then formatted else "<dl>" ++ formatted ++ "</dl>").

Definition formatted_data_html (conf : settings) (table : list FormField.t)
    (self : t) : outcome string :=
  formatted_data conf table self true.

End FormSubmission.

(* ================================================================== *)
(** * The database and the mail collaborator *)
(* ================================================================== *)

Record mail : Type := {
  subject : string;
  message : string;
  from_email : string;
  recipient_list : list string
}.

(** What the methods read and change: the two tables, the messages handed
    to the mail backend (delivered or not) and the clock. *)
Record world : Type := {
  formfields : list FormField.t;
  submissions : list FormSubmission.t;
  mail_attempts : list mail;
  clock : Z
}.

Definition next_id (rows : list FormSubmission.t) : nat :=
  S (list_max (map FormSubmission.id rows)).

(** [FormSubmission.objects.create(form=..., data=..., path=...)]:
    [submitted] is set from the clock ([auto_now_add]). *)
Definition create_submission (w : world) (form_pk : nat) (data path : string)
  : world * FormSubmission.t :=
  let row := {| FormSubmission.id := next_id (submissions w);
                FormSubmission.submitted := clock w;
                FormSubmission.form := form_pk;
                FormSubmission.data := data;
                FormSubmission.path := path |} in
  ({| formfields := formfields w;
      submissions := (submissions w ++ [row])%list;
      mail_attempts := mail_attempts w;
      clock := clock w |}, row).

(** [django.core.mail.send_mail]: the message is handed to the backend,
    which delivers it or fails ([deliver]); a failure raises unless
    [fail_silently]. The result is the number of messages delivered. *)
Definition send_mail (deliver : mail -> bool) (m : mail) (fail_silently : bool)
    (w : world) : world * outcome nat :=
  let w' := {| formfields := formfields w;
               submissions := submissions w;
               mail_attempts := (mail_attempts w ++ [m])%list;
               clock := clock w |} in
  if deliver m then (w', Return 1)
  else if fail_silently then (w', Return 0)
  else (w', Raise SMTPException).

(* ================================================================== *)
(** * Form *)
(* ================================================================== *)

Module Form.

(** [config] is the mapping the descriptor [JSONFieldDescriptor] parses
    from [config_json]: option name to the option's settings. *)
Record t : Type := {
  pk : nat;
  title : string;
  config : Dict.t (Dict.t string)
}.

(** Name, title and the form fields of each option. *)
Definition CONFIG_OPTIONS
  : list (string * (string * list (string * Forms.field_class))) :=
  [("email", ("E-mail", [("email", Forms.EmailField)]))].

(** The bound form instance and the request, as far as [process] reads
    them. *)
Record form_instance : Type := { cleaned_data : pydict }.
Record request : Type := { path : string }.

(** The class [type(name, bases, fields)] creates. *)
Record form_class : Type := {
  class_name : string;
  bases : list pyclass;
  fields : Dict.t Forms.field
}.

(** The loop of [form()]. *)
Fixpoint add_formfields (rows : list FormField.t) (fields : Dict.t Forms.field)
    (self : t) : outcome (Dict.t Forms.field) :=
  match rows with
  | [] => Return fields
  | field :: rest =>
      fields' <- FormField.add_formfield field fields self ;;
      add_formfields rest fields' self
  end.

Definition form (FORM_CLASSES : list pyclass) (table : list FormField.t)
    (self : t) : outcome form_class :=
  fields <- add_formfields (FormField.fields_all table (pk self))
              Dict.empty self ;;
  Return {| class_name := "Form" ++ Text.decimal (pk self);
            bases := FORM_CLASSES;
            fields := fields |}.

Definition acknowledgement : string :=
  "Thank you, your input has been received.".

(** [process]: the world after the call, and the value returned or the
    exception raised.  [None] is the value of falling off the end. *)
Definition process (conf : settings) (deliver : mail -> bool) (self : t)
    (form : form_instance) (req : request) (w : world)
  : world * outcome (option string) :=
  let (w1, submission) :=
    create_submission w (pk self) (Repr.repr_dict (cleaned_data form))
      (path req) in
  if Dict.mem "email" (config self) then
    match FormSubmission.formatted_data conf (formfields w1) submission false with
    | Raise e => (w1, Raise e)
    | Return body =>
        match (options <- Dict.item "email" (config self) ;;
               Dict.item "email" options) with
        | Raise e => (w1, Raise e)
        | Return address =>
            let (w2, sent) :=
              send_mail deliver
                {| subject := title self;
                   message := body;
                   from_email := DEFAULT_FROM_EMAIL conf;
                   recipient_list := [address] |} true w1 in
            match sent with
            | Raise e => (w2, Raise e)
            | Return _ => (w2, Return (Some acknowledgement))
            end
        end
    end
  else (w1, Return None).

End Form.

(* ================================================================== *)
(** * The properties, as the specification words them *)
(* ================================================================== *)

Module Spec.

(** The choice-bearing types: select, radio and multiple-select. *)
Definition choice_bearing (ty : FormField.field_type) : bool :=
  match ty with
  | FormField.select | FormField.radio | FormField.multiple_select => true
  | _ => false
  end.

(** An optional field whose type is exactly [select]. *)
Definition optional_select (f : FormField.t) : bool :=
  negb (FormField.is_required f)
  && match FormField.type f with
     | FormField.select => true
     | _ => false
     end.

(** The blank "no selection" option. *)
Definition blank_option : string * string := ("", "---------").

(** Choice derivation: each piece trimmed, the slug of the trimmed text
    as the value and the trimmed text as the label. *)
Definition derived_choices (choices : string) : list (string * string) :=
  map (fun piece => (Slug.slugify (Text.strip piece), Text.strip piece))
      (Text.split "," choices).


(** One entry of the formatted data. *)
Definition render_item (html : bool) (kv : string * pyvalue) : string :=
  if html
  then "<dt>" ++ fst kv ++ "</dt><dd>" ++ Repr.str_value (snd kv) ++ "</dd>"
       ++ Text.nl
  else fst kv ++ ": " ++ Repr.str_value (snd kv) ++ Text.nl.

(** An entry whose key is not among the hidden fields. *)
Definition visible (hidden : list string) (kv : string * pyvalue) : bool :=
  negb (Text.mem (fst kv) hidden).

Definition render (html : bool) (items : list (string * pyvalue)) : string :=
  let body := fold_right append EmptyString (map (render_item html) items) in
  if html then "<dl>" ++ body ++ "</dl>" else body.

(** The data model's [email] option: its settings include a destination
    address. *)
Definition email_option_complete (config : Dict.t (Dict.t string)) : Prop :=
  forall options, Dict.get "email" config = Some options ->
                  Dict.mem "email" options = true.

(** The (ordering, identity) order of the rows: by [ordering], and by
    [id] among rows of equal [ordering]. *)
Definition precedes (a b : FormField.t) : Prop :=
  (FormField.ordering a < FormField.ordering b)%Z
  \/ (FormField.ordering a = FormField.ordering b
      /\ FormField.id a <= FormField.id b).



End Spec.

(* ================================================================== *)
(** * Concrete forms, rows and submissions *)
(* ================================================================== *)

Module Example.

Definition field (id : nat) (ordering : Z) (name title : string)
    (type : FormField.field_type) (choices : string) (is_required : bool)
  : FormField.t :=
  {| FormField.id := id; FormField.form := 1; FormField.ordering := ordering;
     FormField.title := title; FormField.name := name;
     FormField.type := type; FormField.choices := choices;
     FormField.help_text := EmptyString;
     FormField.is_required := is_required |}.

Definition submission (data : string) : FormSubmission.t :=
  {| FormSubmission.id := 1; FormSubmission.submitted := 0%Z;
     FormSubmission.form := 1; FormSubmission.data := data;
     FormSubmission.path := "/contact/" |}.

Definition conf (classes : option (list class_spec)) (hidden : list string)
  : settings :=
  {| FORM_DESIGNER_CLASSES := classes;
     FORM_DESIGNER_PASS_REQUEST := None;
     FORM_DESIGNER_HIDDEN_FIELDS := Some hidden;
     DEFAULT_FROM_EMAIL := "webmaster@localhost" |}.

(** A form class of a project: [class MyForm(forms.Form)]. *)
Definition MyForm : pyclass :=
  {| cls_name := "myapp.forms.MyForm";
     cls_ancestors := ["django.forms.Form"; "django.forms.BaseForm"; "object"];
     cls_type := cls_type forms_Form |}.

(** A contact form that notifies by mail. *)
Definition contact : Form.t :=
  {| Form.pk := 1; Form.title := "Contact";
     Form.config := [("email", [("email", "owner@example.com")])] |}.

Definition b_row : FormField.t := field 1 2 "b" "B" FormField.text "" true.
Definition a_row : FormField.t := field 2 1 "a" "A" FormField.text "" true.

Definition email_row : FormField.t :=
  field 1 0 "email" "E-mail" FormField.email "" true.

Definition email_and_name : pydict :=
  [("email", PyUnicode "a@b.com"); ("Name", PyUnicode "X")].

(** A field titled like a stored key that names no current field. *)
Definition n_row : FormField.t := field 1 0 "n" "x" FormField.text "" true.
Definition m_row : FormField.t := field 2 1 "m" "y" FormField.text "" true.
Definition n_m_and_x : pydict :=
  [("n", PyUnicode "1"); ("m", PyUnicode "3"); ("x", PyUnicode "2")].

Definition optional_select : FormField.t :=
  field 1 0 "colour" "Colour" FormField.select "A, b ,C" false.

Definition answers : pydict :=
  [("a", PyUnicode "it's"); ("b", PyList ["p"; "q"]); ("c", PyBool true)].

Definition world0 : world :=
  {| formfields := [b_row; a_row]; submissions := [];
     mail_attempts := []; clock := 0%Z |}.

End Example.

(* ================================================================== *)
(** * The metadata of [sorted_data] *)
(* ================================================================== *)

(** [sorted_data(include)] with a tuple [include]: the four trailing tests
    of the method add the submission's timestamp, its date part, its time
    part and its path.  A value of the mapping is then a captured value or
    one of the three objects made from the timestamp. *)
Module Meta.

Inductive cell : Type :=
| Captured (v : pyvalue)
| DateTime (submitted : Z)
| DateOf (submitted : Z)
| TimeOf (submitted : Z).

Definition lift (items : Dict.t pyvalue) : Dict.t cell :=
  map (fun kv => (fst kv, Captured (snd kv))) items.

(** Lines 180-187, on the mapping the two loops built. *)
Definition add_meta (self : FormSubmission.t) (include : list string)
    (data : Dict.t cell) : Dict.t cell :=
  let data :=
    if Text.mem "datetime" include
    then Dict.set "submitted" (DateTime (FormSubmission.submitted self)) data
    else data in
  let data :=
    if Text.mem "date" include
    then Dict.set "date submitted" (DateOf (FormSubmission.submitted self)) data
    else data in
  let data :=
    if Text.mem "time" include
    then Dict.set "time submitted" (TimeOf (FormSubmission.submitted self)) data
    else data in
  if Text.mem "path" include
  then Dict.set "form path"
         (Captured (PyUnicode (FormSubmission.path self))) data
  else data.

Definition sorted_data (table : list FormField.t) (self : FormSubmission.t)
    (include : list string) : outcome (Dict.t cell) :=
  data_dict <- Eval.python_eval (FormSubmission.data self) ;;
  Return (add_meta self include
            (lift (FormSubmission.sorted_items
                     (FormField.fields_all table (FormSubmission.form self))
                     data_dict))).

(** The keys the four tests assign. *)
Definition meta_keys : list string :=
  ["submitted"; "date submitted"; "time submitted"; "form path"].

(** The entries the tests add for [include], in the order of the tests. *)
Definition meta_entries (self : FormSubmission.t) (include : list string)
  : list (string * cell) :=
  ((if Text.mem "datetime" include
    then [("submitted", DateTime (FormSubmission.submitted self))] else [])
   ++ (if Text.mem "date" include
       then [("date submitted", DateOf (FormSubmission.submitted self))]
       else [])
   ++ (if Text.mem "time" include
       then [("time submitted", TimeOf (FormSubmission.submitted self))]
       else [])
   ++ (if Text.mem "path" include
       then [("form path", Captured (PyUnicode (FormSubmission.path self)))]
       else []))%list.

End Meta.

(* ================================================================== *)
(** * FormContent *)
(* ================================================================== *)

(** The content type that embeds a form in a page.  The template engine is
    kept as what it is handed: [render_to_string(template, context)] is the
    [page] made of the template name, the request of the [RequestContext]
    and the context's entries.  Validation of a bound form is the forms
    library's: [validate] gives the cleaned data of an instance that
    [is_valid()], and [None] for one that is not. *)
Module FormContent.

Record request : Type := {
  method : string;
  POST : Dict.t (list string);
  path : string
}.

(** A row; [form] is the row of the form it points to. *)
Record t : Type := {
  id : nat;
  form : Form.t;
  show_form_title : bool;
  success_message : string
}.

Definition template : string := "content/form/form.html".

(** An instance of the synthesized class: the request it was given (in
    "pass request" mode), the data it is bound to ([None]: unbound) and the
    prefix. *)
Record form_instance : Type := {
  form_class : Form.form_class;
  request_arg : option request;
  data : option (Dict.t (list string));
  prefix : string
}.

Inductive context : Type :=
| WithForm (content : t) (form : form_instance)
| WithMessage (content : t) (message : string).

Record page : Type := {
  page_template : string;
  page_request : request;
  page_context : context
}.

(** [a or b or u''] for a text [a] and a text or [None] [b]. *)
Definition first_nonempty (a : string) (b : option string) : string :=
  if negb (Text.is_empty a) then a
  else match b with
       | Some m => if negb (Text.is_empty m) then m else EmptyString
       | None => EmptyString
       end.

Definition process_valid_form (conf : settings) (deliver : mail -> bool)
    (self : t) (req : request) (cleaned_data : pydict) (w : world)
  : world * outcome page :=
  let (w', process_result) :=
    Form.process conf deliver (form self)
      {| Form.cleaned_data := cleaned_data |} {| Form.path := path req |} w in
  match process_result with
  | Raise e => (w', Raise e)
  | Return result =>
      (w', Return {| page_template := template;
                     page_request := req;
                     page_context :=
                       WithMessage self
                         (first_nonempty (success_message self) result) |})
  end.

(** [render].  In either mode [self.form.form()] is the first call that
    can raise, and nothing is written before it. *)
Definition render (conf : settings) (FORM_CLASSES : list pyclass)
    (validate : form_instance -> option pydict) (deliver : mail -> bool)
    (self : t) (req : request) (w : world) : world * outcome page :=
  match Form.form FORM_CLASSES (formfields w) (form self) with
  | Raise e => (w, Raise e)
  | Return cls =>
      let request_arg := if FORM_TAKES_REQUEST conf then Some req else None in
      let prefix := "fc" ++ Text.decimal (id self) in
      if String.eqb (method req) "POST" then
        let form_instance :=
          {| form_class := cls; request_arg := request_arg;
             data := Some (POST req); prefix := prefix |} in
        match validate form_instance with
        | Some cleaned_data =>
            process_valid_form conf deliver self req cleaned_data w
        | None =>
            (w, Return {| page_template := template;
                          page_request := req;
                          page_context := WithForm self form_instance |})
        end
      else
        let form_instance :=
          {| form_class := cls; request_arg := request_arg;
             data := None; prefix := prefix |} in
        (w, Return {| page_template := template;
                      page_request := req;
                      page_context := WithForm self form_instance |})
  end.

End FormContent.

(* ================================================================== *)
(** * Character classes of the texts the module produces *)
(* ================================================================== *)

Module Charset.

(** The number of occurrences of [c] in the text. *)
Fixpoint count_char (c : ascii) (s : string) : nat :=
  match s with
  | EmptyString => 0
  | String d r => (if Ascii.eqb d c then 1 else 0) + count_char c r
  end.

(** Printable ASCII: space to tilde. *)
Definition is_printable (c : ascii) : bool :=
  ((32 <=? Text.code c) && (Text.code c <=? 126))%N.

(** The alphabet of a slug: lower-case letters, digits, underscore and
    hyphen. *)
Definition is_slug_char (c : ascii) : bool :=
  let n := Text.code c in
  Slug.between 97 122 n || Slug.between 48 57 n
  || (n =? 95)%N || (n =? 45)%N.

End Charset.

(** Inputs of the witnesses below. *)
Module Sample.

Definition conf_with (classes : list class_spec) : settings :=
  Example.conf (Some classes) [].

(** A mixin that is no form: [class Honeypot(object)]. *)
Definition Honeypot : pyclass :=
  {| cls_name := "myapp.forms.Honeypot";
     cls_ancestors := ["object"];
     cls_type := ["type"; "object"] |}.

Definition env : modules :=
  [("myapp.forms", [("MyForm", Example.MyForm); ("Honeypot", Honeypot)])].

(** A contact form whose [email] option has no address. *)
Definition incomplete : Form.t :=
  {| Form.pk := 1; Form.title := "Contact";
     Form.config := [("email", [])] |}.


Definition content : FormContent.t :=
  {| FormContent.id := 7; FormContent.form := Example.contact;
     FormContent.show_form_title := true;
     FormContent.success_message := "Thanks!" |}.

Definition get_request : FormContent.request :=
  {| FormContent.method := "GET"; FormContent.POST := [];
     FormContent.path := "/contact/" |}.

Definition post_request : FormContent.request :=
  {| FormContent.method := "POST";
     FormContent.POST := [("fc7-a", ["x"]); ("fc7-b", ["y"])];
     FormContent.path := "/contact/" |}.

Definition cleaned : pydict := [("a", PyUnicode "x"); ("b", PyUnicode "y")].

End Sample.

(* ================================================================== *)
(** * Text written by [repr] is read back by [eval] *)
(* ================================================================== *)

Lemma append_assoc (a b c : string) : (a ++ b) ++ c = a ++ (b ++ c).
Proof. induction a as [|x a IH]; simpl; [reflexivity | now rewrite IH]. Qed.

Lemma length_append (a b : string) :
  String.length (a ++ b) = String.length a + String.length b.
Proof. induction a as [|x a IH]; simpl; [reflexivity | now rewrite IH]. Qed.

Lemma parse_body_escape_char (q c : ascii) (rest : string) :
  q = Text.squote \/ q = Text.dquote ->
  Eval.parse_body q (Repr.escape_char q c ++ rest)
  = Eval.cons_char c (Eval.parse_body q rest).
Proof.
  intros [-> | ->]; destruct c as [[] [] [] [] [] [] [] []]; reflexivity.
Qed.

Lemma parse_body_escaped (q : ascii) (s rest : string) :
  q = Text.squote \/ q = Text.dquote ->
  Eval.parse_body q (Text.flat_map (Repr.escape_char q) s ++ String q rest)
  = Some (s, rest).
Proof.
  intros Hq. induction s as [|c s IH].
  - simpl. rewrite Ascii.eqb_refl. reflexivity.
  - simpl Text.flat_map. rewrite append_assoc, parse_body_escape_char by exact Hq.
    rewrite IH. reflexivity.
Qed.

Lemma quote_for_cases (s : string) :
  Repr.quote_for s = Text.squote \/ Repr.quote_for s = Text.dquote.
Proof.
  unfold Repr.quote_for.
  destruct (Text.contains_char Text.squote s && negb (Text.contains_char Text.dquote s));
    [right | left]; reflexivity.
Qed.

Lemma parse_unicode_repr (s rest : string) :
  Eval.parse_unicode (Repr.repr_unicode s ++ rest) = Some (s, rest).
Proof.
  unfold Repr.repr_unicode.
  pose proof (quote_for_cases s) as Hq.
  set (q := Repr.quote_for s) in *.
  cbn [append Eval.parse_unicode].
  assert (Hb : (Ascii.eqb q Text.squote || Ascii.eqb q Text.dquote) = true)
    by (destruct Hq as [-> | ->]; reflexivity).
  rewrite Hb, append_assoc. cbn [Text.chr append].
  apply parse_body_escaped, Hq.
Qed.

Lemma repr_unicode_head (s : string) :
  exists t, Repr.repr_unicode s = String "u" t.
Proof. unfold Repr.repr_unicode. eexists. reflexivity. Qed.

Lemma parse_items_blank (fuel : nat) (s : string) :
  Eval.parse_items fuel (String " " s) = Eval.parse_items fuel s.
Proof. destruct fuel; reflexivity. Qed.

Lemma parse_items_item (fuel : nat) (x rest : string) :
  Eval.parse_items (S fuel) (Repr.repr_unicode x ++ rest)
  = match Eval.skip_spaces rest with
    | String "," r1 =>
        match Eval.parse_items fuel r1 with
        | Some (xs, r2) => Some (x :: xs, r2)
        | None => None
        end
    | String "]" r1 => Some ([x], r1)
    | _ => None
    end.
Proof.
  pose proof (parse_unicode_repr x rest) as H.
  destruct (repr_unicode_head x) as [t Ht]. rewrite Ht in *.
  cbn [Eval.parse_items append Eval.skip_spaces].
  cbn [append] in H. rewrite H. reflexivity.
Qed.

Lemma parse_items_repr (items : list string) :
  forall (rest : string) (fuel : nat),
    String.length (Repr.join_comma (map Repr.repr_unicode items)) < fuel ->
    Eval.parse_items fuel
      (Repr.join_comma (map Repr.repr_unicode items) ++ String "]" rest)
    = Some (items, rest).
Proof.
  induction items as [|x [|y r] IH]; intros rest fuel Hfuel.
  - destruct fuel; [inversion Hfuel | reflexivity].
  - destruct fuel; [inversion Hfuel|].
    cbn [map Repr.join_comma]. rewrite parse_items_item. reflexivity.
  - destruct fuel; [inversion Hfuel|].
    change (Repr.join_comma (map Repr.repr_unicode (x :: y :: r)))
      with (Repr.repr_unicode x ++ ", " ++ Repr.join_comma (map Repr.repr_unicode (y :: r))) in *.
    rewrite !append_assoc. rewrite parse_items_item.
    cbn [append Eval.skip_spaces]. rewrite parse_items_blank.
    rewrite IH; [reflexivity|].
    rewrite !length_append in Hfuel. cbn [String.length] in Hfuel. lia.
Qed.

Lemma parse_value_repr (v : pyvalue) (rest : string) (fuel : nat) :
  String.length (Repr.repr_value v) <= fuel ->
  Eval.parse_value fuel (Repr.repr_value v ++ rest) = Some (v, rest).
Proof.
  intros Hfuel. destruct v as [|[|]|s|items].
  - reflexivity.
  - reflexivity.
  - reflexivity.
  - pose proof (parse_unicode_repr s rest) as H.
    cbn [Repr.repr_value]. destruct (repr_unicode_head s) as [t Ht].
    rewrite Ht in *. cbn [append Eval.parse_value] in *. rewrite H. reflexivity.
  - cbn [Repr.repr_value] in *. unfold Repr.repr_list in *.
    rewrite !append_assoc. cbn [append Eval.parse_value].
    rewrite parse_items_repr; [reflexivity|].
    cbn [append String.length] in Hfuel. rewrite length_append in Hfuel. lia.
Qed.

Lemma skip_spaces_repr_value (v : pyvalue) (rest : string) :
  Eval.skip_spaces (Repr.repr_value v ++ rest) = Repr.repr_value v ++ rest.
Proof.
  destruct v as [|[|]|s|items]; reflexivity.
Qed.

Lemma parse_entries_blank (fuel : nat) (s : string) :
  Eval.parse_entries fuel (String " " s) = Eval.parse_entries fuel s.
Proof. destruct fuel; reflexivity. Qed.

Lemma parse_entries_entry (fuel : nat) (kv : string * pyvalue) (rest : string) :
  String.length (Repr.repr_value (snd kv)) <= fuel ->
  Eval.parse_entries (S fuel) (Repr.repr_entry kv ++ rest)
  = match Eval.skip_spaces rest with
    | String "," r3 =>
        match Eval.parse_entries fuel r3 with
        | Some (kvs, r4) => Some (kv :: kvs, r4)
        | None => None
        end
    | String "}" r3 => Some ([kv], r3)
    | _ => None
    end.
Proof.
  destruct kv as [k v]. unfold Repr.repr_entry. cbn [fst snd]. intros Hfuel.
  rewrite !append_assoc.
  pose proof (parse_unicode_repr k (": " ++ Repr.repr_value v ++ rest)) as H.
  destruct (repr_unicode_head k) as [t Ht]. rewrite Ht in *.
  cbn [Eval.parse_entries append Eval.skip_spaces].
  cbn [append] in H. rewrite H.
  cbn [append Eval.skip_spaces].
  rewrite skip_spaces_repr_value, parse_value_repr by exact Hfuel.
  reflexivity.
Qed.

Lemma parse_entries_repr (d : pydict) :
  forall (rest : string) (fuel : nat),
    String.length (Repr.join_comma (map Repr.repr_entry d)) < fuel ->
    Eval.parse_entries fuel
      (Repr.join_comma (map Repr.repr_entry d) ++ String "}" rest)
    = Some (d, rest).
Proof.
  induction d as [|kv [|kv' r] IH]; intros rest fuel Hfuel.
  - destruct fuel; [inversion Hfuel | reflexivity].
  - destruct fuel; [inversion Hfuel|].
    cbn [map Repr.join_comma] in *. rewrite parse_entries_entry; [reflexivity|].
    unfold Repr.repr_entry in Hfuel. rewrite !length_append in Hfuel. lia.
  - destruct fuel; [inversion Hfuel|].
    change (Repr.join_comma (map Repr.repr_entry (kv :: kv' :: r)))
      with (Repr.repr_entry kv ++ ", "
            ++ Repr.join_comma (map Repr.repr_entry (kv' :: r))) in *.
    rewrite !length_append in Hfuel. cbn [String.length] in Hfuel.
    rewrite !append_assoc. rewrite parse_entries_entry.
    + cbn [append Eval.skip_spaces]. rewrite parse_entries_blank.
      rewrite IH; [reflexivity | lia].
    + unfold Repr.repr_entry in Hfuel. rewrite !length_append in Hfuel. lia.
Qed.

(** Evaluating the text [repr] writes gives the dict built from the
    listed entries. *)
Lemma eval_repr (d : list (string * pyvalue)) :
  Eval.python_eval (Repr.repr_dict d) = Return (Dict.of_pairs d).
Proof.
  unfold Eval.python_eval, Repr.repr_dict.
  cbn [append Eval.skip_spaces].
  replace (Repr.join_comma (map Repr.repr_entry d) ++ "}")
    with (Repr.join_comma (map Repr.repr_entry d) ++ String "}" EmptyString)
    by reflexivity.
  rewrite parse_entries_repr.
  - reflexivity.
  - cbn [String.length]. rewrite length_append. cbn [String.length]. lia.
Qed.

(** ** Ordered dictionaries *)

Lemma dict_set_fresh {V : Type} (k : string) (v : V) (d : Dict.t V) :
  ~ In k (Dict.keys d) -> Dict.set k v d = (d ++ [(k, v)])%list.
Proof.
  induction d as [|[k' v'] d IH]; intros Hk; [reflexivity|].
  cbn [Dict.set]. destruct (String.eqb_spec k k') as [->|Hne].
  - exfalso. apply Hk. now left.
  - cbn [app]. rewrite IH; [reflexivity|]. intros Hin. apply Hk. now right.
Qed.

Lemma dict_keys_set {V : Type} (k : string) (v : V) (d : Dict.t V) :
  Dict.keys (Dict.set k v d)
  = if Text.mem k (Dict.keys d) then Dict.keys d
    else (Dict.keys d ++ [k])%list.
Proof.
  induction d as [|[k' v'] d IH]; [reflexivity|].
  cbn [Dict.set Dict.keys map fst Text.mem].
  destruct (String.eqb_spec k k') as [->|Hne]; cbn [orb].
  - reflexivity.
  - cbn [map fst]. fold (Dict.keys (Dict.set k v d)). rewrite IH.
    fold (Dict.keys d). destruct (Text.mem k (Dict.keys d)); reflexivity.
Qed.

Lemma text_mem_In (k : string) (l : list string) :
  Text.mem k l = true <-> In k l.
Proof.
  induction l as [|x l IH]; cbn [Text.mem In].
  - split; [discriminate | tauto].
  - rewrite orb_true_iff, IH, String.eqb_eq. split; intros [H|H]; auto.
Qed.

Lemma text_mem_false (k : string) (l : list string) :
  Text.mem k l = false <-> ~ In k l.
Proof.
  rewrite <- text_mem_In. destruct (Text.mem k l); split; intros H;
    try reflexivity; try discriminate; try (intros; discriminate).
  exfalso. now apply H.
Qed.

Lemma dict_set_wf {V : Type} (k : string) (v : V) (d : Dict.t V) :
  Dict.wf d -> Dict.wf (Dict.set k v d).
Proof.
  unfold Dict.wf. intros Hd. rewrite dict_keys_set.
  destruct (Text.mem k (Dict.keys d)) eqn:Hm; [exact Hd|].
  apply text_mem_false in Hm.
  apply NoDup_app; [exact Hd | repeat constructor; intros [] | ].
  intros x Hx [<-|[]]. now apply Hm.
Qed.

Lemma dict_fold_wf {V : Type} (kvs : list (string * V)) (d : Dict.t V) :
  Dict.wf d ->
  Dict.wf (fold_left (fun d kv => Dict.set (fst kv) (snd kv) d) kvs d).
Proof.
  revert d. induction kvs as [|kv kvs IH]; intros d Hd; [exact Hd|].
  cbn [fold_left]. apply IH, dict_set_wf, Hd.
Qed.

Lemma dict_of_pairs_wf {V : Type} (kvs : list (string * V)) :
  Dict.wf (Dict.of_pairs kvs).
Proof. apply dict_fold_wf. constructor. Qed.

Lemma dict_fold_fresh {V : Type} (kvs : list (string * V)) (d : Dict.t V) :
  NoDup (Dict.keys d ++ Dict.keys kvs) ->
  fold_left (fun d kv => Dict.set (fst kv) (snd kv) d) kvs d = (d ++ kvs)%list.
Proof.
  revert d. induction kvs as [|[k v] kvs IH]; intros d Hnd.
  - cbn [fold_left]. now rewrite app_nil_r.
  - cbn [fold_left fst snd]. cbn [Dict.keys map fst] in Hnd.
    rewrite dict_set_fresh.
    + rewrite IH.
      * now rewrite <- app_assoc.
      * unfold Dict.keys in *. rewrite map_app, <- app_assoc. exact Hnd.
    + intros Hin. apply NoDup_remove_2 in Hnd. apply Hnd.
      apply in_or_app. now left.
Qed.

Lemma dict_of_pairs_id {V : Type} (d : Dict.t V) :
  Dict.wf d -> Dict.of_pairs d = d.
Proof.
  intros Hd. unfold Dict.of_pairs. rewrite dict_fold_fresh; [reflexivity|].
  exact Hd.
Qed.

Lemma python_eval_wf (text : string) (d : pydict) :
  Eval.python_eval text = Return d -> Dict.wf d.
Proof.
  unfold Eval.python_eval.
  destruct (Eval.skip_spaces text) as [|c r]; [discriminate|].
  destruct (Ascii.eqb_spec c "{") as [->|Hc].
  - destruct (Eval.parse_entries _ r) as [[kvs rest]|]; [|discriminate].
    destruct (Eval.skip_spaces rest); [|discriminate].
    intros [= <-]. apply dict_of_pairs_wf.
  - destruct c as [[] [] [] [] [] [] [] []]; try discriminate.
    now exfalso.
Qed.

Lemma dict_get_set_same {V : Type} (k : string) (v : V) (d : Dict.t V) :
  Dict.get k (Dict.set k v d) = Some v.
Proof.
  induction d as [|[k' v'] d IH]; cbn [Dict.set Dict.get].
  - now rewrite String.eqb_refl.
  - destruct (String.eqb_spec k k') as [->|Hne]; cbn [Dict.get].
    + now rewrite String.eqb_refl.
    + apply String.eqb_neq in Hne. now rewrite Hne.
Qed.

Lemma dict_get_set_other {V : Type} (k k' : string) (v : V) (d : Dict.t V) :
  k <> k' -> Dict.get k (Dict.set k' v d) = Dict.get k d.
Proof.
  intros Hne. induction d as [|[k0 v0] d IH]; cbn [Dict.set Dict.get].
  - apply String.eqb_neq in Hne. now rewrite Hne.
  - destruct (String.eqb_spec k' k0) as [->|Hne0]; cbn [Dict.get].
    + apply String.eqb_neq in Hne. now rewrite Hne.
    + now rewrite IH.
Qed.

(** ** The two loops of [sorted_data] *)

Lemma by_title_names (fields : list FormField.t) (d : pydict) :
  forall data names,
    snd (FormSubmission.by_title fields d data names)
    = (names ++ map FormField.name fields)%list.
Proof.
  induction fields as [|f fields IH]; intros data names; cbn [FormSubmission.by_title].
  - cbn [snd map]. now rewrite app_nil_r.
  - rewrite IH. cbn [map]. now rewrite <- app_assoc.
Qed.







Lemma append_extra_get_other (entries : list (string * pyvalue))
    (names : list string) (key : string) :
  forall data,
    (In key (Dict.keys entries) -> In key names) ->
    Dict.get key (FormSubmission.append_extra entries names data)
    = Dict.get key data.
Proof.
  induction entries as [|[k v] entries IH]; intros data Hk;
    cbn [FormSubmission.append_extra]; [reflexivity|].
  cbn [Dict.keys map fst In] in Hk. fold (Dict.keys entries) in Hk.
  rewrite IH by tauto.
  destruct (Text.mem k names) eqn:Hm; cbn [negb]; [reflexivity|].
  apply dict_get_set_other. intros ->.
  apply text_mem_false in Hm. apply Hm, Hk. now left.
Qed.


(** ** The default order of the field rows *)

Section RowOrder.

Local Abbreviation row := FormField.t.

















End RowOrder.

(** ** Splitting and trimming *)

Lemma split_nonempty (sep : ascii) (s : string) : Text.split sep s <> [].
Proof.
  destruct s as [|c r]; cbn [Text.split]; [discriminate|].
  destruct (Ascii.eqb c sep); [discriminate|].
  destruct (Text.split sep r); discriminate.
Qed.

(** Joining the pieces with the separator gives the text back. *)
Lemma concat_split (sep : ascii) (s : string) :
  String.concat (Text.chr sep) (Text.split sep s) = s.
Proof.
  induction s as [|c r IH]; [reflexivity|].
  cbn [Text.split]. pose proof (split_nonempty sep r) as Hne.
  destruct (Ascii.eqb_spec c sep) as [->|Hc].
  - destruct (Text.split sep r) as [|p ps]; [contradiction|].
    change (String.concat (Text.chr sep) (EmptyString :: p :: ps))
      with (String sep (String.concat (Text.chr sep) (p :: ps))).
    now rewrite IH.
  - destruct (Text.split sep r) as [|p ps]; [contradiction|].
    rewrite <- IH. destruct ps; reflexivity.
Qed.

Lemma split_pieces (sep : ascii) (s : string) :
  Forall (fun p => Text.contains_char sep p = false) (Text.split sep s).
Proof.
  induction s as [|c r IH]; cbn [Text.split].
  - repeat constructor.
  - destruct (Ascii.eqb c sep) eqn:Hc.
    + constructor; [reflexivity | exact IH].
    + destruct (Text.split sep r) as [|p ps].
      * repeat constructor. cbn [Text.chr Text.contains_char]. now rewrite Hc.
      * inversion IH; subst. constructor; [|assumption].
        cbn [Text.contains_char]. now rewrite Hc.
Qed.

Lemma lstrip_spec (sp : ascii -> bool) (s : string) :
  exists l, s = l ++ Text.lstrip sp s /\ Text.all_chars sp l = true.
Proof.
  induction s as [|c r [l [Hl Hsp]]]; cbn [Text.lstrip].
  - exists EmptyString. split; reflexivity.
  - destruct (sp c) eqn:Hc.
    + exists (String c l). cbn [append Text.all_chars]. rewrite Hc, Hsp, <- Hl.
      split; reflexivity.
    + exists EmptyString. split; reflexivity.
Qed.

Lemma rstrip_spec (sp : ascii -> bool) (s : string) :
  exists r, s = Text.rstrip sp s ++ r /\ Text.all_chars sp r = true.
Proof.
  induction s as [|c s [r [Hr Hsp]]]; cbn [Text.rstrip].
  - exists EmptyString. split; reflexivity.
  - destruct (Text.rstrip sp s) as [|d t] eqn:Hs.
    + destruct (sp c) eqn:Hc.
      * exists (String c r). cbn [append Text.all_chars] in *.
        rewrite Hc, Hsp, <- Hr. split; reflexivity.
      * exists r. cbn [append Text.chr] in *. split; [now f_equal | exact Hsp].
    + exists r. cbn [append] in *. split; [now f_equal | exact Hsp].
Qed.

(** [strip] removes a run of whitespace at each end and nothing else. *)
Lemma strip_spec (s : string) :
  exists l r, s = l ++ Text.strip s ++ r
              /\ Text.all_chars Text.is_unicode_space l = true
              /\ Text.all_chars Text.is_unicode_space r = true.
Proof.
  unfold Text.strip, Text.strip_with.
  destruct (lstrip_spec Text.is_unicode_space s) as [l [Hl Hlsp]].
  destruct (rstrip_spec Text.is_unicode_space
              (Text.lstrip Text.is_unicode_space s)) as [r [Hr Hrsp]].
  exists l, r. rewrite <- Hr, <- Hl. auto.
Qed.

Lemma lstrip_head (sp : ascii -> bool) (s : string) (c : ascii) (t : string) :
  Text.lstrip sp s = String c t -> sp c = false.
Proof.
  induction s as [|d r IH]; cbn [Text.lstrip]; [discriminate|].
  destruct (sp d) eqn:Hd; [exact IH|]. intros [= <- <-]. exact Hd.
Qed.

Lemma rstrip_head (sp : ascii -> bool) (s : string) (c : ascii) (t : string) :
  Text.rstrip sp s = String c t ->
  exists t', s = String c t'.
Proof.
  destruct s as [|d r]; cbn [Text.rstrip]; [discriminate|].
  destruct (Text.rstrip sp r).
  - destruct (sp d); [discriminate|]. intros [= <- <-]. now exists r.
  - intros [= <- <-]. now exists r.
Qed.

(** The trimmed text does not start with whitespace. *)
Lemma strip_head (s : string) (c : ascii) (t : string) :
  Text.strip s = String c t -> Text.is_unicode_space c = false.
Proof.
  unfold Text.strip, Text.strip_with. intros H.
  apply rstrip_head in H. destruct H as [t' H].
  now apply lstrip_head in H.
Qed.

Lemma rstrip_last (sp : ascii -> bool) (s : string) (c : ascii) :
  Text.last_char (Text.rstrip sp s) = Some c -> sp c = false.
Proof.
  induction s as [|d r IH]; cbn [Text.rstrip]; [discriminate|].
  destruct (Text.rstrip sp r) as [|e t] eqn:Hr.
  - destruct (sp d) eqn:Hd; [discriminate|].
    cbn [Text.chr Text.last_char]. intros [= <-]. exact Hd.
  - cbn [Text.last_char]. exact IH.
Qed.

(** The trimmed text does not end with whitespace. *)
Lemma strip_last (s : string) (c : ascii) :
  Text.last_char (Text.strip s) = Some c -> Text.is_unicode_space c = false.
Proof. apply rstrip_last. Qed.

(** ** FormField *)

Lemma get_type_registry (self : FormField.t) (kw : Forms.kwargs) :
  FormField.get_type self kw
  = match FormField.type self with
    | FormField.text => Forms.construct Forms.CharField kw
    | FormField.email => Forms.construct Forms.EmailField kw
    | FormField.longtext =>
        Forms.curry Forms.CharField (FormField.with_widget Forms.Textarea) kw
    | FormField.checkbox =>
        Forms.curry Forms.BooleanField (FormField.with_required false) kw
    | FormField.select =>
        Forms.curry Forms.ChoiceField (FormField.with_required false) kw
    | FormField.radio =>
        Forms.curry Forms.ChoiceField (FormField.with_widget Forms.RadioSelect) kw
    | FormField.multiple_select =>
        Forms.construct Forms.MultipleChoiceField kw
    end.
Proof. unfold FormField.get_type. destruct (FormField.type self); reflexivity. Qed.

(** The class of the field a type constructs, whatever the arguments. *)
Lemma get_type_class (self : FormField.t) (kw : Forms.kwargs) (f : Forms.field) :
  FormField.get_type self kw = Return f ->
  Forms.isinstance f Forms.ChoiceField = Spec.choice_bearing (FormField.type self).
Proof.
  rewrite get_type_registry. unfold Forms.curry, Forms.construct.
  destruct (FormField.type self); cbn [Forms.merge Forms.kw_choices
    FormField.with_widget FormField.with_required Forms.or_else];
    destruct (Forms.kw_choices kw); cbn; intros [= <-]; reflexivity.
Qed.


Lemma get_choices_cases (self : FormField.t) :
  FormField.get_choices self
  = ((if Spec.optional_select self then [Spec.blank_option] else [])
     ++ Spec.derived_choices (FormField.choices self))%list.
Proof.
  unfold FormField.get_choices, Spec.optional_select.
  destruct (FormField.is_required self), (FormField.type self); reflexivity.
Qed.

(** No derived pair is the blank option: a label of nine hyphens has the
    slug of one hyphen. *)
Lemma blank_not_derived (choices : string) :
  ~ In Spec.blank_option (Spec.derived_choices choices).
Proof.
  unfold Spec.derived_choices, Spec.blank_option. intros H.
  apply in_map_iff in H. destruct H as [piece [H _]].
  injection H as Hslug Hlabel. rewrite Hlabel in Hslug.
  vm_compute in Hslug. discriminate.
Qed.


(** ** Form.form *)



(** ** FormSubmission.formatted_data *)

Lemma format_items_render (hidden : list string) (html : bool)
    (items : list (string * pyvalue)) :
  forall formatted,
    FormSubmission.format_items hidden html items formatted
    = formatted
      ++ fold_right append EmptyString
           (map (Spec.render_item html) (List.filter (Spec.visible hidden) items)).
Proof.
  induction items as [|[key value] items IH]; intros formatted;
    cbn [FormSubmission.format_items List.filter].
  - cbn [map fold_right]. induction formatted as [|c f IHf]; cbn [append];
      [reflexivity | now rewrite <- IHf].
  - rewrite IH. unfold Spec.visible at 2. cbn [fst].
    destruct (Text.mem key hidden); cbn [negb]; [reflexivity|].
    cbn [map fold_right]. unfold Spec.render_item at 2. cbn [fst snd].
    destruct html; now rewrite !append_assoc.
Qed.

Lemma formatted_data_render (conf : settings) (table : list FormField.t)
    (self : FormSubmission.t) (html : bool) :
  FormSubmission.formatted_data conf table self html
  = (items <- FormSubmission.sorted_data table self ;;
     Return (Spec.render html
               (List.filter (Spec.visible (HIDDEN_FIELDS conf)) items))).
Proof.
  unfold FormSubmission.formatted_data, Spec.render.
  destruct (FormSubmission.sorted_data table self) as [items|e]; [|reflexivity].
  cbn [bind]. rewrite format_items_render. cbn [append].
  destruct html; reflexivity.
Qed.

(* ================================================================== *)
(** * The claims *)
(* ================================================================== *)

(** ** Stored data *)

(** Reading back what [repr] wrote for a dict gives the dict. *)
Lemma eval_repr_dict (d : pydict) :
  Dict.wf d -> Eval.python_eval (Repr.repr_dict d) = Return d.
Proof.
  intros Hd. rewrite eval_repr, dict_of_pairs_id by exact Hd. reflexivity.
Qed.

Lemma answers_wf : Dict.wf Example.answers.
Proof.
  unfold Dict.wf, Example.answers. cbn [Dict.keys map fst].
  repeat constructor; cbn [In]; intuition discriminate.
Defined.

(** ** Start-up *)

Lemma parse_classes_resolved (env : modules) (specs : list class_spec) :
  forall added acc flag,
    Forall2 (fun spec c => resolve_class env spec = Return c) specs added ->
    parse_classes env specs acc flag
    = Return ((acc ++ added)%list,
              flag || existsb (fun c => class_isinstance c forms_Form) added).
Proof.
  induction specs as [|spec specs IH]; intros added acc flag Hall;
    inversion Hall as [|? c ? added' Hc Hall']; subst; cbn [parse_classes].
  - now rewrite app_nil_r, orb_false_r.
  - rewrite Hc. cbn [bind]. rewrite (IH added') by exact Hall'.
    cbn [existsb]. now rewrite <- app_assoc, orb_assoc.
Qed.

(** The flag of the start-up loop tests whether a class object is an
    instance of the form base.  When no configured class is one (no class
    is, unless its metaclass derives from the form base), the form base is
    appended, whatever the configured classes inherit from. *)
Lemma form_classes_appended (conf : settings) (env : modules)
    (specs : list class_spec) (classes : list pyclass) :
  FORM_DESIGNER_CLASSES conf = Some specs ->
  Forall2 (fun spec c => resolve_class env spec = Return c) specs classes ->
  Forall (fun c => class_isinstance c forms_Form = false) classes ->
  FORM_CLASSES conf env = Return (classes ++ [forms_Form])%list.
Proof.
  intros Hconf Hres Hinst. unfold FORM_CLASSES. rewrite Hconf.
  rewrite (parse_classes_resolved env specs classes) by exact Hres.
  cbn [bind fst snd app orb].
  assert (Hex : existsb (fun c => class_isinstance c forms_Form) classes = false).
  { clear Hres. induction Hinst as [|c classes Hc _ IH]; [reflexivity|].
    cbn [existsb]. now rewrite Hc, IH. }
  rewrite Hex. reflexivity.
Qed.

(** C2 (the code departs from the claim).  With the single configured class
    [MyForm], a subclass of the form base, the start-up code still appends
    the form base, where the documented rule appends nothing. *)
Theorem form_classes_appends_after_subclass :
  class_issubclass Example.MyForm forms_Form = true
  /\ FORM_CLASSES (Example.conf (Some [SpecClass Example.MyForm]) []) []
     = Return [Example.MyForm; forms_Form]
  /\ FORM_CLASSES_documented [Example.MyForm] = [Example.MyForm].
Proof. repeat split. Qed.

(** ** Form.process and the stored data *)

Lemma formatted_data_of_repr (conf : settings) (table : list FormField.t)
    (self : FormSubmission.t) (d : list (string * pyvalue)) (html : bool) :
  FormSubmission.data self = Repr.repr_dict d ->
  exists body, FormSubmission.formatted_data conf table self html = Return body.
Proof.
  intros Hdata. unfold FormSubmission.formatted_data, FormSubmission.sorted_data.
  rewrite Hdata, eval_repr. cbn [bind]. eexists. reflexivity.
Qed.

(** The row [process] creates, whatever happens after its creation. *)
Lemma process_submissions (conf : settings) (deliver : mail -> bool)
    (self : Form.t) (form : Form.form_instance) (req : Form.request)
    (w : world) :
  submissions (fst (Form.process conf deliver self form req w))
  = (submissions w
     ++ [{| FormSubmission.id := next_id (submissions w);
            FormSubmission.submitted := clock w;
            FormSubmission.form := Form.pk self;
            FormSubmission.data := Repr.repr_dict (Form.cleaned_data form);
            FormSubmission.path := Form.path req |}])%list.
Proof.
  unfold Form.process. cbn [create_submission].
  destruct (Dict.mem "email" (Form.config self)); [|reflexivity].
  destruct (FormSubmission.formatted_data _ _ _ _); [|reflexivity].
  destruct (bind _ _); [|reflexivity].
  unfold send_mail. destruct (deliver _); reflexivity.
Qed.




Lemma contact_config_complete :
  Spec.email_option_complete (Form.config Example.contact).
Proof.
  intros options. cbn. intros [= <-]. reflexivity.
Defined.


(** ** FormSubmission.sorted_data *)







(** ** FormSubmission.formatted_data *)

(** C5.  [formatted_data] renders, in either mode, exactly the entries of
    [sorted_data()] whose key is not in the hidden-fields list.  With
    [E-mail] hidden, a submission holding [email] and [Name] for a form
    whose one field is [email], titled [E-mail], formats in plain mode to
    the single line [Name: X]. *)
Theorem formatted_data_hides (conf : settings) (table : list FormField.t)
    (self : FormSubmission.t) :
  (forall html,
      FormSubmission.formatted_data conf table self html
      = (items <- FormSubmission.sorted_data table self ;;
         Return (Spec.render html
                   (List.filter (Spec.visible (HIDDEN_FIELDS conf)) items))))
  /\ (forall kv,
         Spec.visible (HIDDEN_FIELDS conf) kv = true
         <-> ~ In (fst kv) (HIDDEN_FIELDS conf))
  /\ (HIDDEN_FIELDS conf = ["E-mail"] ->
      (let described :=
         map (fun f => (FormField.name f, FormField.title f))
             (FormField.fields_all table (FormSubmission.form self)) in
       described = [("email", "E-mail")]
       \/ described = [("email", "E-mail"); ("Name", "Name")]
       \/ described = [("Name", "Name"); ("email", "E-mail")]) ->
      Eval.python_eval (FormSubmission.data self)
      = Return [("email", PyUnicode "a@b.com"); ("Name", PyUnicode "X")] ->
      FormSubmission.formatted_data conf table self false
      = Return ("Name: X" ++ Text.nl)).
Proof.
  split; [|split].
  - intros html. apply formatted_data_render.
  - intros kv. unfold Spec.visible.
    rewrite negb_true_iff, text_mem_false. reflexivity.
  - intros Hh Hf He. rewrite formatted_data_render.
    unfold FormSubmission.sorted_data. rewrite He, Hh. cbn [bind].
    cbv zeta in Hf. unfold FormSubmission.sorted_items.
    destruct (FormField.fields_all table (FormSubmission.form self))
      as [|f [|g [|h fs]]]; cbn [map] in Hf;
      destruct Hf as [Hf|[Hf|Hf]]; try discriminate Hf.
    + injection Hf as Hn Ht.
      cbn [FormSubmission.by_title]. rewrite Hn, Ht. reflexivity.
    + injection Hf as Hn Ht Hn' Ht'.
      cbn [FormSubmission.by_title]. rewrite Hn, Ht, Hn', Ht'. reflexivity.
    + injection Hf as Hn Ht Hn' Ht'.
      cbn [FormSubmission.by_title]. rewrite Hn, Ht, Hn', Ht'. reflexivity.
Qed.

Lemma formatted_data_hides_witness :
  FormSubmission.formatted_data (Example.conf None ["E-mail"])
    [Example.email_row]
    (Example.submission (Repr.repr_dict Example.email_and_name)) false
  = Return ("Name: X" ++ Text.nl).
Proof.
  apply (formatted_data_hides (Example.conf None ["E-mail"])
           [Example.email_row]
           (Example.submission (Repr.repr_dict Example.email_and_name)));
    [reflexivity | left; reflexivity | reflexivity].
Defined.

(** ** FormField.get_choices *)

(** C6, as stated, fails on an optional field of type [select]: its
    choices are the three derived pairs preceded by the blank option. *)
Lemma get_choices_optional_select :
  Spec.choice_bearing (FormField.type Example.optional_select) = true
  /\ FormField.choices Example.optional_select = "A, b ,C"
  /\ FormField.get_choices Example.optional_select
     = [("", "---------"); ("a", "A"); ("b", "b"); ("c", "C")]
  /\ FormField.get_choices Example.optional_select
     <> [("a", "A"); ("b", "b"); ("c", "C")].
Proof.
  repeat split. vm_compute. discriminate.
Qed.

(** C6 (amended).  [get_choices()] splits the choices text on commas (the
    pieces joined by commas are the text, and no piece holds a comma), and
    gives for each piece, in order, the slug of the trimmed piece as value
    and the trimmed piece as label (trimming removes a run of whitespace at
    each end, and what is left neither starts nor ends with whitespace); an
    optional field of type [select] has the blank option before them.  For the choices [A, b ,C] the derived
    pairs are (a, A), (b, b), (c, C), and they are all the choices unless
    the field is an optional select. *)
Theorem get_choices_derivation (self : FormField.t) :
  FormField.get_choices self
  = ((if Spec.optional_select self then [Spec.blank_option] else [])
     ++ map (fun piece => (Slug.slugify (Text.strip piece), Text.strip piece))
          (Text.split "," (FormField.choices self)))%list
  /\ String.concat "," (Text.split "," (FormField.choices self))
     = FormField.choices self
  /\ Forall (fun piece => Text.contains_char "," piece = false)
       (Text.split "," (FormField.choices self))
  /\ (forall piece,
         exists l r,
           piece = l ++ Text.strip piece ++ r
           /\ Text.all_chars Text.is_unicode_space l = true
           /\ Text.all_chars Text.is_unicode_space r = true)
  /\ (forall piece c,
         (exists t, Text.strip piece = String c t)
         \/ Text.last_char (Text.strip piece) = Some c ->
         Text.is_unicode_space c = false)
  /\ (FormField.choices self = "A, b ,C" ->
      FormField.get_choices self
      = ((if Spec.optional_select self then [Spec.blank_option] else [])
         ++ [("a", "A"); ("b", "b"); ("c", "C")])%list)
  /\ (FormField.choices self = "A, b ,C" ->
      Spec.optional_select self = false ->
      FormField.get_choices self = [("a", "A"); ("b", "b"); ("c", "C")]).
Proof.
  split; [apply get_choices_cases|].
  split; [apply (concat_split ",")|].
  split; [apply split_pieces|].
  split; [apply strip_spec|].
  split.
  { intros piece c [[t Ht]|Hl];
    [exact (strip_head piece c t Ht) | exact (strip_last piece c Hl)]. }
  split.
  - intros Hc. rewrite get_choices_cases, Hc. reflexivity.
  - intros Hc Ho. rewrite get_choices_cases, Hc, Ho. reflexivity.
Qed.

Lemma get_choices_derivation_witness :
  FormField.get_choices
    (Example.field 1 0 "size" "Size" FormField.radio "A, b ,C" false)
  = [("a", "A"); ("b", "b"); ("c", "C")].
Proof.
  apply (get_choices_derivation
           (Example.field 1 0 "size" "Size" FormField.radio "A, b ,C" false));
    reflexivity.
Defined.

(** C7.  [get_choices()] puts the blank option in front of the derived
    pairs exactly when the field is not required and its type is [select];
    the derived pairs never hold a blank option themselves, so the result
    has one blank option in that case and none otherwise.  With an empty
    choices text the blank option is followed by the single pair the empty
    text derives. *)
Theorem get_choices_blank_option (self : FormField.t) :
  (Spec.optional_select self = true
   <-> FormField.is_required self = false
       /\ FormField.type self = FormField.select)
  /\ FormField.get_choices self
     = (if Spec.optional_select self
        then Spec.blank_option :: Spec.derived_choices (FormField.choices self)
        else Spec.derived_choices (FormField.choices self))
  /\ ~ In Spec.blank_option (Spec.derived_choices (FormField.choices self))
  /\ (In Spec.blank_option (FormField.get_choices self)
      <-> Spec.optional_select self = true)
  /\ (FormField.choices self = "" ->
      FormField.get_choices self
      = if Spec.optional_select self
        then [Spec.blank_option; ("", "")] else [("", "")]).
Proof.
  split; [|split; [|split; [|split]]].
  - unfold Spec.optional_select.
    destruct (FormField.is_required self), (FormField.type self); cbn;
      split; try discriminate; try (intros [? ?]; discriminate); auto.
  - rewrite get_choices_cases. destruct (Spec.optional_select self); reflexivity.
  - apply blank_not_derived.
  - rewrite get_choices_cases. destruct (Spec.optional_select self); cbn [app].
    + split; [reflexivity | intros _; now left].
    + split; [intros H; exfalso; revert H; apply blank_not_derived | discriminate].
  - intros Hc. rewrite get_choices_cases, Hc.
    destruct (Spec.optional_select self); reflexivity.
Qed.

(** ** FormField.clean *)


(** ** Form.form *)




(* ================================================================== *)
(** * Further properties of the module *)
(* ================================================================== *)

(** ** Start-up: the configured classes *)

Lemma parse_classes_prefix (env : modules) (good : list class_spec) :
  forall classes more acc flag,
    Forall2 (fun spec c => resolve_class env spec = Return c) good classes ->
    parse_classes env (good ++ more) acc flag
    = parse_classes env more (acc ++ classes)%list
        (flag || existsb (fun c => class_isinstance c forms_Form) classes).
Proof.
  induction good as [|spec good IH]; intros classes more acc flag Hall;
    inversion Hall as [|? c ? classes' Hc Hall']; subst.
  - cbn [app existsb]. now rewrite app_nil_r, orb_false_r.
  - cbn [app parse_classes]. rewrite Hc. cbn [bind].
    rewrite (IH classes') by exact Hall'.
    cbn [existsb]. now rewrite <- app_assoc, orb_assoc.
Qed.

(** X2.  Start-up stops at the first configured entry that does not
    resolve, with that entry's exception: the entries after it are not
    looked at, and no tuple of classes is built. *)
Theorem form_classes_first_failure (conf : settings) (env : modules)
    (good rest : list class_spec) (bad : class_spec)
    (classes : list pyclass) (e : exn) :
  FORM_DESIGNER_CLASSES conf = Some (good ++ bad :: rest)%list ->
  Forall2 (fun spec c => resolve_class env spec = Return c) good classes ->
  resolve_class env bad = Raise e ->
  FORM_CLASSES conf env = Raise e.
Proof.
  intros Hconf Hgood Hbad. unfold FORM_CLASSES. rewrite Hconf.
  rewrite (parse_classes_prefix env good classes) by exact Hgood.
  cbn [parse_classes]. rewrite Hbad. reflexivity.
Qed.

Lemma form_classes_first_failure_witness :
  FORM_CLASSES
    (Sample.conf_with
       [SpecClass Example.MyForm; SpecPath "myapp.forms.Missing"; SpecOther])
    Sample.env
  = Raise (AttributeError "Missing").
Proof.
  apply (form_classes_first_failure
           (Sample.conf_with
              [SpecClass Example.MyForm; SpecPath "myapp.forms.Missing";
               SpecOther])
           Sample.env [SpecClass Example.MyForm] [SpecOther]
           (SpecPath "myapp.forms.Missing") [Example.MyForm]).
  - reflexivity.
  - repeat constructor.
  - reflexivity.
Defined.





(** X1.  When every configured entry resolves, [FORM_CLASSES] holds the
    resolved classes in the configured order, followed by the form base
    unless one of the class objects is itself an instance of the form base;
    what the classes inherit from plays no part. *)
Theorem form_classes_resolved (conf : settings) (env : modules)
    (specs : list class_spec) (classes : list pyclass) :
  FORM_DESIGNER_CLASSES conf = Some specs ->
  Forall2 (fun spec c => resolve_class env spec = Return c) specs classes ->
  FORM_CLASSES conf env
  = Return (if existsb (fun c => class_isinstance c forms_Form) classes
            then classes else (classes ++ [forms_Form])%list).
Proof.
  intros Hconf Hres. unfold FORM_CLASSES. rewrite Hconf.
  rewrite (parse_classes_resolved env specs classes) by exact Hres.
  cbn [bind fst snd app orb].
  destruct (existsb _ classes); reflexivity.
Qed.

Lemma form_classes_resolved_witness :
  FORM_CLASSES
    (Sample.conf_with [SpecPath "myapp.forms.MyForm"; SpecClass Sample.Honeypot])
    Sample.env
  = Return [Example.MyForm; Sample.Honeypot; forms_Form].
Proof.
  apply (form_classes_resolved
           (Sample.conf_with
              [SpecPath "myapp.forms.MyForm"; SpecClass Sample.Honeypot])
           Sample.env
           [SpecPath "myapp.forms.MyForm"; SpecClass Sample.Honeypot]
           [Example.MyForm; Sample.Honeypot]).
  - reflexivity.
  - repeat constructor.
Defined.

(** ** FormField: validation and field construction *)




(** X5.  The field [formfield()] constructs carries the row's attributes:
    its label is the title, it is required exactly when the row is (the
    [required=False] curried into the checkbox and select constructors never
    wins), its help text is the row's, and its choices are [get_choices()]
    when the row has a choices text and empty otherwise. *)
Theorem formfield_attributes (self : FormField.t) (f : Forms.field) :
  FormField.formfield self = Return f ->
  Forms.label f = Some (FormField.title self)
  /\ Forms.required f = FormField.is_required self
  /\ Forms.help_text f = FormField.help_text self
  /\ Forms.choices f
     = (if Text.is_empty (FormField.choices self) then []
        else FormField.get_choices self)
  /\ Forms.isinstance f Forms.ChoiceField
     = Spec.choice_bearing (FormField.type self).
Proof.
  intros Hf. pose proof (get_type_class self _ f Hf) as Hclass.
  unfold FormField.formfield in Hf. rewrite get_type_registry in Hf.
  unfold Forms.curry, Forms.construct in Hf.
  repeat split; try exact Hclass;
    destruct (Text.is_empty (FormField.choices self));
    destruct (FormField.help_text self) as [|c h];
    destruct (FormField.type self); cbn in Hf; try discriminate;
    injection Hf as <-; reflexivity.
Qed.

Lemma formfield_attributes_witness :
  exists f,
    FormField.formfield
      (Example.field 1 0 "agree" "I agree" FormField.checkbox "" true)
    = Return f
    /\ Forms.required f = true
    /\ Forms.label f = Some "I agree".
Proof.
  eexists. split; [reflexivity|].
  destruct (formfield_attributes
              (Example.field 1 0 "agree" "I agree" FormField.checkbox "" true)
              _ eq_refl) as [Hl [Hr _]].
  split; [exact Hr | exact Hl].
Defined.

(** ** FormField.get_choices: how many choices, and which values *)

Lemma split_length (sep : ascii) (s : string) :
  length (Text.split sep s) = S (Charset.count_char sep s).
Proof.
  induction s as [|c r IH]; [reflexivity|].
  cbn [Text.split Charset.count_char].
  destruct (Ascii.eqb c sep).
  - cbn [length]. rewrite IH. reflexivity.
  - destruct (Text.split sep r) as [|p ps]; cbn [length] in *; lia.
Qed.

(** X7.  [get_choices()] has one choice per comma-separated piece: one
    more than the number of commas in the choices text, and the blank option
    besides for an optional select.  It is never empty: an empty choices
    text gives one choice. *)
Theorem get_choices_length (self : FormField.t) :
  length (FormField.get_choices self)
  = (if Spec.optional_select self then 1 else 0)
    + S (Charset.count_char "," (FormField.choices self))
  /\ FormField.get_choices self <> [].
Proof.
  assert (H : length (FormField.get_choices self)
              = (if Spec.optional_select self then 1 else 0)
                + S (Charset.count_char "," (FormField.choices self))).
  { rewrite get_choices_cases. unfold Spec.derived_choices.
    rewrite length_app, length_map, split_length.
    destruct (Spec.optional_select self); reflexivity. }
  split; [exact H|].
  intros E. rewrite E in H. cbn [length] in H. lia.
Qed.

Lemma all_chars_append (p : ascii -> bool) (a b : string) :
  Text.all_chars p (a ++ b) = Text.all_chars p a && Text.all_chars p b.
Proof.
  induction a as [|c a IH]; cbn [append Text.all_chars]; [reflexivity|].
  now rewrite IH, andb_assoc.
Qed.

Lemma all_chars_filter (p : ascii -> bool) (s : string) :
  Text.all_chars p (Text.filter p s) = true.
Proof.
  induction s as [|c s IH]; cbn [Text.filter]; [reflexivity|].
  destruct (p c) eqn:Hc; [|exact IH].
  cbn [Text.all_chars]. now rewrite Hc, IH.
Qed.

Lemma all_chars_lstrip (p sp : ascii -> bool) (s : string) :
  Text.all_chars p s = true -> Text.all_chars p (Text.lstrip sp s) = true.
Proof.
  induction s as [|c s IH]; cbn [Text.lstrip Text.all_chars]; [reflexivity|].
  intros H. apply andb_true_iff in H. destruct H as [Hc Hs].
  destruct (sp c); [now apply IH|].
  cbn [Text.all_chars]. now rewrite Hc, Hs.
Qed.

Lemma all_chars_rstrip (p sp : ascii -> bool) (s : string) :
  Text.all_chars p s = true -> Text.all_chars p (Text.rstrip sp s) = true.
Proof.
  induction s as [|c s IH]; cbn [Text.rstrip Text.all_chars]; [reflexivity|].
  intros H. apply andb_true_iff in H. destruct H as [Hc Hs].
  specialize (IH Hs). destruct (Text.rstrip sp s) as [|d t].
  - destruct (sp c); [reflexivity|].
    cbn [Text.chr Text.all_chars]. now rewrite Hc.
  - cbn [Text.all_chars] in *. now rewrite Hc, IH.
Qed.

(** What is left of a kept character after lower-casing: a character of
    the slug alphabet or a separator. *)
Lemma lower_of_kept (c : ascii) :
  Slug.kept c = true ->
  Charset.is_slug_char (Text.lower_char c)
  || Slug.is_separator (Text.lower_char c) = true.
Proof.
  destruct c as [[] [] [] [] [] [] [] []]; intros H;
    first [reflexivity | discriminate H].
Qed.

Lemma all_chars_lower (s : string) :
  Text.all_chars Slug.kept s = true ->
  Text.all_chars (fun c => Charset.is_slug_char c || Slug.is_separator c)
    (Text.lower s) = true.
Proof.
  induction s as [|c s IH]; cbn [Text.lower Text.all_chars]; [reflexivity|].
  intros H. apply andb_true_iff in H. destruct H as [Hc Hs].
  now rewrite (lower_of_kept c Hc), IH.
Qed.

Lemma all_chars_hyphenate (s : string) :
  forall in_run,
    Text.all_chars (fun c => Charset.is_slug_char c || Slug.is_separator c) s
    = true ->
    Text.all_chars Charset.is_slug_char (Slug.hyphenate in_run s) = true.
Proof.
  induction s as [|c s IH]; intros in_run;
    cbn [Slug.hyphenate Text.all_chars]; [reflexivity|].
  intros H. apply andb_true_iff in H. destruct H as [Hc Hs].
  destruct (Slug.is_separator c) eqn:Hsep.
  - destruct in_run; [now apply IH|].
    cbn [Text.all_chars]. now rewrite IH.
  - cbn [Text.all_chars]. rewrite orb_false_r in Hc.
    now rewrite Hc, IH.
Qed.

(** A slug is written in the slug alphabet. *)
Lemma slugify_alphabet (value : string) :
  Text.all_chars Charset.is_slug_char (Slug.slugify value) = true.
Proof.
  unfold Slug.slugify. apply all_chars_hyphenate, all_chars_lower.
  unfold Text.strip_with. apply all_chars_rstrip, all_chars_lstrip.
  apply all_chars_filter.
Qed.

(** X8.  Every choice of [get_choices()] is the blank option or a pair
    whose value is the slug of its label; in either case the value is
    written with lower-case letters, digits, underscores and hyphens only,
    whatever the choices text holds. *)
Theorem get_choices_values (self : FormField.t) (value label : string) :
  In (value, label) (FormField.get_choices self) ->
  ((value, label) = Spec.blank_option \/ value = Slug.slugify label)
  /\ Text.all_chars Charset.is_slug_char value = true.
Proof.
  rewrite get_choices_cases. intros H. apply in_app_or in H.
  destruct H as [H|H].
  - destruct (Spec.optional_select self); [|destruct H].
    destruct H as [H|[]]. injection H as <- <-. split; [now left | reflexivity].
  - unfold Spec.derived_choices in H. apply in_map_iff in H.
    destruct H as [piece [H _]]. injection H as <- <-.
    split; [now right | apply slugify_alphabet].
Qed.

Lemma get_choices_values_witness :
  (("b", "b") = Spec.blank_option \/ "b" = Slug.slugify "b")
  /\ Text.all_chars Charset.is_slug_char "b" = true.
Proof.
  apply (get_choices_values Example.optional_select "b" "b").
  cbn. right. right. now left.
Defined.

Lemma lstrip_all_space (sp : ascii -> bool) (s : string) :
  Text.all_chars sp s = true -> Text.lstrip sp s = EmptyString.
Proof.
  induction s as [|c s IH]; cbn [Text.lstrip Text.all_chars]; [reflexivity|].
  intros H. apply andb_true_iff in H. destruct H as [Hc Hs].
  rewrite Hc. now apply IH.
Qed.

(** X9.  A piece of the choices text that is empty or all whitespace (a
    doubled or trailing comma, an empty choices text) gives a choice with
    empty value and empty label. *)
Theorem get_choices_blank_piece (self : FormField.t) (piece : string) :
  In piece (Text.split "," (FormField.choices self)) ->
  Text.all_chars Text.is_unicode_space piece = true ->
  In (EmptyString, EmptyString) (FormField.get_choices self).
Proof.
  intros Hin Hsp. rewrite get_choices_cases. apply in_or_app. right.
  unfold Spec.derived_choices. apply in_map_iff. exists piece.
  split; [|exact Hin].
  unfold Text.strip, Text.strip_with.
  rewrite (lstrip_all_space _ piece Hsp). reflexivity.
Qed.

Lemma get_choices_blank_piece_witness :
  In (EmptyString, EmptyString)
     (FormField.get_choices
        (Example.field 1 0 "size" "Size" FormField.radio "S, ,L," true)).
Proof.
  apply (get_choices_blank_piece
           (Example.field 1 0 "size" "Size" FormField.radio "S, ,L," true)
           " ").
  - cbn. right. now left.
  - reflexivity.
Defined.

(** ** Form.form: when the class cannot be built *)





(** ** Form.process: the mail backend and a missing address *)

(** X10.  What [process] returns and what it leaves in the world do not
    depend on the mail backend: a message that cannot be delivered is
    attempted, and its failure changes nothing. *)
Theorem process_ignores_delivery (conf : settings) (deliver deliver' : mail -> bool)
    (self : Form.t) (form : Form.form_instance) (req : Form.request)
    (w : world) :
  Form.process conf deliver self form req w
  = Form.process conf deliver' self form req w.
Proof.
  unfold Form.process. cbn [create_submission].
  destruct (Dict.mem "email" (Form.config self)); [|reflexivity].
  destruct (FormSubmission.formatted_data _ _ _ _); [|reflexivity].
  destruct (bind _ _); [|reflexivity].
  unfold send_mail. destruct (deliver _), (deliver' _); reflexivity.
Qed.

(** X11.  When the config has the [email] option but the option's settings
    hold no [email] address, [process] raises [KeyError] after it has
    created the submission: the row stays, and no message is attempted. *)
Theorem process_missing_address (conf : settings) (deliver : mail -> bool)
    (self : Form.t) (form : Form.form_instance) (req : Form.request)
    (w : world) (options : Dict.t string) :
  Dict.get "email" (Form.config self) = Some options ->
  Dict.get "email" options = None ->
  Form.process conf deliver self form req w
  = ({| formfields := formfields w;
        submissions :=
          (submissions w
           ++ [{| FormSubmission.id := next_id (submissions w);
                  FormSubmission.submitted := clock w;
                  FormSubmission.form := Form.pk self;
                  FormSubmission.data :=
                    Repr.repr_dict (Form.cleaned_data form);
                  FormSubmission.path := Form.path req |}])%list;
        mail_attempts := mail_attempts w;
        clock := clock w |},
     Raise (KeyError "email")).
Proof.
  intros Hopt Haddr. unfold Form.process. cbn [create_submission].
  unfold Dict.mem. rewrite Hopt.
  match goal with
  | |- context [FormSubmission.formatted_data ?c ?t ?s false] =>
      destruct (formatted_data_of_repr c t s (Form.cleaned_data form) false
                  eq_refl) as [body Hbody]
  end.
  cbn [formfields] in *. rewrite Hbody.
  unfold Dict.item. rewrite Hopt. cbn [bind]. rewrite Haddr. reflexivity.
Qed.

Lemma process_missing_address_witness :
  snd (Form.process (Example.conf None []) (fun _ => true) Sample.incomplete
         {| Form.cleaned_data := Example.answers |}
         {| Form.path := "/contact/" |} Example.world0)
  = Raise (KeyError "email").
Proof.
  rewrite (process_missing_address (Example.conf None []) (fun _ => true)
             Sample.incomplete {| Form.cleaned_data := Example.answers |}
             {| Form.path := "/contact/" |} Example.world0 []);
    reflexivity.
Defined.

(** ** FormSubmission.sorted_data: what holds for every form and submission *)

Lemma dict_keys_set_In {V : Type} (k k' : string) (v : V) (d : Dict.t V) :
  In k (Dict.keys (Dict.set k' v d)) <-> k = k' \/ In k (Dict.keys d).
Proof.
  rewrite dict_keys_set. destruct (Text.mem k' (Dict.keys d)) eqn:Hm.
  - apply text_mem_In in Hm. split; [now right|].
    intros [->|H]; assumption.
  - rewrite in_app_iff. cbn [In]. split.
    + intros [H|[H|[]]]; [now right | now left].
    + intros [H|H]; [right; now left | now left].
Qed.

Lemma by_title_wf (fields : list FormField.t) (d : pydict) :
  forall data names,
    Dict.wf data -> Dict.wf (fst (FormSubmission.by_title fields d data names)).
Proof.
  induction fields as [|f fields IH]; intros data names Hd;
    cbn [FormSubmission.by_title]; [exact Hd|].
  apply IH, dict_set_wf, Hd.
Qed.

Lemma by_title_keys (fields : list FormField.t) (d : pydict) (k : string) :
  forall data names,
    In k (Dict.keys (fst (FormSubmission.by_title fields d data names)))
    <-> In k (Dict.keys data) \/ In k (map FormField.title fields).
Proof.
  induction fields as [|f fields IH]; intros data names;
    cbn [FormSubmission.by_title].
  - cbn [fst map In]. tauto.
  - rewrite IH, dict_keys_set_In. cbn [map In]. split.
    + intros [[->|H]|H]; auto.
    + intros [H|[<-|H]]; auto.
Qed.

Lemma append_extra_wf (entries : list (string * pyvalue)) (names : list string) :
  forall data,
    Dict.wf data -> Dict.wf (FormSubmission.append_extra entries names data).
Proof.
  induction entries as [|[k v] entries IH]; intros data Hd;
    cbn [FormSubmission.append_extra]; [exact Hd|].
  apply IH. destruct (negb (Text.mem k names)); [now apply dict_set_wf | exact Hd].
Qed.

Lemma append_extra_keys (entries : list (string * pyvalue))
    (names : list string) (k : string) :
  forall data,
    In k (Dict.keys (FormSubmission.append_extra entries names data))
    <-> In k (Dict.keys data)
        \/ (In k (Dict.keys entries) /\ ~ In k names).
Proof.
  induction entries as [|[k0 v0] entries IH]; intros data;
    cbn [FormSubmission.append_extra].
  - cbn [Dict.keys map In]. tauto.
  - rewrite IH. cbn [Dict.keys map fst In]. fold (Dict.keys entries).
    destruct (Text.mem k0 names) eqn:Hm; cbn [negb].
    + apply text_mem_In in Hm. split.
      * intros [H|[H Hn]]; auto.
      * intros [H|[[<-|H] Hn]]; auto. contradiction.
    + apply text_mem_false in Hm. rewrite dict_keys_set_In. split.
      * intros [[->|H]|[H Hn]]; auto.
      * intros [H|[[<-|H] Hn]]; auto.
Qed.

(** X12.  Whatever the titles and the stored keys are, the mapping
    [sorted_data()] returns has no key twice, and its keys are exactly the
    titles of the form's current fields and the stored keys that match no
    current field name. *)
Theorem sorted_data_keys (table : list FormField.t) (self : FormSubmission.t)
    (d : pydict) :
  Eval.python_eval (FormSubmission.data self) = Return d ->
  exists items,
    FormSubmission.sorted_data table self = Return items
    /\ Dict.wf items
    /\ forall k,
         In k (Dict.keys items)
         <-> In k (map FormField.title
                     (FormField.fields_all table (FormSubmission.form self)))
             \/ (In k (Dict.keys d)
                 /\ ~ In k (map FormField.name
                              (FormField.fields_all table
                                 (FormSubmission.form self)))).
Proof.
  intros He. unfold FormSubmission.sorted_data. rewrite He. cbn [bind].
  eexists. split; [reflexivity|]. unfold FormSubmission.sorted_items. split.
  - apply append_extra_wf, by_title_wf. constructor.
  - intros k. rewrite append_extra_keys, by_title_keys, by_title_names.
    cbn [Dict.keys Dict.empty map In app]. tauto.
Qed.

Lemma sorted_data_keys_witness :
  exists items,
    FormSubmission.sorted_data [Example.n_row; Example.m_row]
      (Example.submission (Repr.repr_dict Example.n_m_and_x)) = Return items
    /\ Dict.wf items.
Proof.
  destruct (sorted_data_keys [Example.n_row; Example.m_row]
              (Example.submission (Repr.repr_dict Example.n_m_and_x))
              Example.n_m_and_x eq_refl) as [items [Hi [Hwf _]]].
  exists items. split; assumption.
Defined.

Lemma dict_get_keys {V : Type} (k : string) (v : V) (d : Dict.t V) :
  Dict.get k d = Some v -> In k (Dict.keys d).
Proof.
  induction d as [|[k' v'] d IH]; cbn [Dict.get Dict.keys map fst In];
    [discriminate|].
  destruct (String.eqb_spec k k') as [->|Hne]; [now left|].
  intros H. right. now apply IH.
Qed.

Lemma append_extra_get_stored (entries : list (string * pyvalue))
    (names : list string) (k : string) (v : pyvalue) :
  forall data,
    NoDup (Dict.keys entries) ->
    Dict.get k entries = Some v -> ~ In k names ->
    Dict.get k (FormSubmission.append_extra entries names data) = Some v.
Proof.
  induction entries as [|[k0 v0] entries IH]; intros data Hnd Hget Hn;
    [discriminate|].
  cbn [FormSubmission.append_extra]. cbn [Dict.get] in Hget.
  cbn [Dict.keys map fst] in Hnd. fold (Dict.keys entries) in Hnd.
  inversion Hnd as [|? ? Hk0 Hnd']; subst.
  destruct (String.eqb_spec k k0) as [->|Hne].
  - injection Hget as ->.
    apply text_mem_false in Hn. rewrite Hn. cbn [negb].
    rewrite append_extra_get_other by (intros H; contradiction).
    apply dict_get_set_same.
  - now apply IH.
Qed.

(** X13.  A stored value under a key that matches no current field name
    is never lost or changed: [sorted_data()] maps that key to the stored
    value, whatever the titles of the current fields are. *)
Theorem sorted_data_keeps_unmatched (table : list FormField.t)
    (self : FormSubmission.t) (d : pydict) (k : string) (v : pyvalue) :
  Eval.python_eval (FormSubmission.data self) = Return d ->
  Dict.get k d = Some v ->
  ~ In k (map FormField.name
            (FormField.fields_all table (FormSubmission.form self))) ->
  exists items,
    FormSubmission.sorted_data table self = Return items
    /\ Dict.get k items = Some v.
Proof.
  intros He Hget Hn. unfold FormSubmission.sorted_data. rewrite He.
  cbn [bind]. eexists. split; [reflexivity|].
  unfold FormSubmission.sorted_items.
  apply append_extra_get_stored.
  - eapply python_eval_wf, He.
  - exact Hget.
  - rewrite by_title_names. exact Hn.
Qed.

Lemma sorted_data_keeps_unmatched_witness :
  exists items,
    FormSubmission.sorted_data [Example.n_row; Example.m_row]
      (Example.submission (Repr.repr_dict Example.n_m_and_x)) = Return items
    /\ Dict.get "x" items = Some (PyUnicode "2").
Proof.
  apply (sorted_data_keeps_unmatched [Example.n_row; Example.m_row]
           (Example.submission (Repr.repr_dict Example.n_m_and_x))
           Example.n_m_and_x "x" (PyUnicode "2")).
  - reflexivity.
  - reflexivity.
  - cbn. intros [H|[H|[]]]; discriminate.
Defined.

Lemma filter_none {A : Type} (p : A -> bool) (l : list A) :
  (forall x, In x l -> p x = false) -> List.filter p l = [].
Proof.
  induction l as [|x l IH]; intros H; cbn [List.filter]; [reflexivity|].
  rewrite (H x) by now left. apply IH. intros y Hy. apply H. now right.
Qed.

Lemma filter_all {A : Type} (p : A -> bool) (l : list A) :
  (forall x, In x l -> p x = true) -> List.filter p l = l.
Proof.
  induction l as [|x l IH]; intros H; cbn [List.filter]; [reflexivity|].
  rewrite (H x) by now left. f_equal. apply IH. intros y Hy. apply H. now right.
Qed.




(** X16.  When every key of the sorted data is hidden, the plain text is
    empty and the markup is an empty definition list; when no field is
    hidden, every entry is rendered, in the order of the sorted data. *)
Theorem formatted_data_extremes (conf : settings) (table : list FormField.t)
    (self : FormSubmission.t) (items : Dict.t pyvalue) :
  FormSubmission.sorted_data table self = Return items ->
  ((forall k, In k (Dict.keys items) -> In k (HIDDEN_FIELDS conf)) ->
   FormSubmission.formatted_data conf table self false = Return EmptyString
   /\ FormSubmission.formatted_data conf table self true
      = Return "<dl></dl>")
  /\ (HIDDEN_FIELDS conf = [] ->
      forall html,
        FormSubmission.formatted_data conf table self html
        = Return (Spec.render html items)).
Proof.
  intros Hs. split.
  - intros Hall. rewrite !formatted_data_render, Hs. cbn [bind].
    rewrite filter_none; [split; reflexivity|].
    intros [k v] Hin. unfold Spec.visible. cbn [fst].
    apply negb_false_iff, text_mem_In, Hall.
    unfold Dict.keys. apply in_map_iff. exists (k, v). now split.
  - intros Hh html. rewrite formatted_data_render, Hs, Hh. cbn [bind].
    rewrite filter_all; [reflexivity|]. intros x _. reflexivity.
Qed.

Lemma formatted_data_extremes_witness :
  FormSubmission.formatted_data (Example.conf None ["E-mail"])
    [Example.email_row]
    (Example.submission (Repr.repr_dict [("email", PyUnicode "a@b.com")]))
    true
  = Return "<dl></dl>".
Proof.
  apply (formatted_data_extremes (Example.conf None ["E-mail"])
           [Example.email_row]
           (Example.submission
              (Repr.repr_dict [("email", PyUnicode "a@b.com")]))
           [("E-mail", PyUnicode "a@b.com")] eq_refl).
  cbn. intros k [<-|[]]. now left.
Defined.

(** ** sorted_data(include): the metadata *)

Lemma dict_get_set {V : Type} (k k' : string) (v : V) (d : Dict.t V) :
  Dict.get k (Dict.set k' v d)
  = if String.eqb k k' then Some v else Dict.get k d.
Proof.
  destruct (String.eqb_spec k k') as [->|Hne].
  - apply dict_get_set_same.
  - now apply dict_get_set_other.
Qed.

Lemma dict_set_app {V : Type} (k : string) (v : V) (d l : Dict.t V) :
  ~ In k (Dict.keys d) -> Dict.set k v (d ++ l)%list = (d ++ Dict.set k v l)%list.
Proof.
  induction d as [|[k' v'] d IH]; intros Hk; [reflexivity|].
  cbn [app Dict.set]. destruct (String.eqb_spec k k') as [->|Hne].
  - exfalso. apply Hk. now left.
  - rewrite IH; [reflexivity|]. intros H. apply Hk. now right.
Qed.

Lemma lift_keys (items : Dict.t pyvalue) :
  Dict.keys (Meta.lift items) = Dict.keys items.
Proof.
  unfold Meta.lift, Dict.keys. rewrite map_map. reflexivity.
Qed.

Lemma lift_get (k : string) (items : Dict.t pyvalue) :
  Dict.get k (Meta.lift items) = option_map Meta.Captured (Dict.get k items).
Proof.
  induction items as [|[k' v'] items IH]; [reflexivity|].
  cbn [Meta.lift map fst snd Dict.get]. fold (Meta.lift items).
  destruct (String.eqb k k'); [reflexivity | exact IH].
Qed.

Lemma add_meta_app (self : FormSubmission.t) (include : list string)
    (d l : Dict.t Meta.cell) :
  (forall k, In k Meta.meta_keys -> ~ In k (Dict.keys d)) ->
  Meta.add_meta self include (d ++ l)%list
  = (d ++ Meta.add_meta self include l)%list.
Proof.
  intros Hk. unfold Meta.add_meta.
  assert (H1 : ~ In "submitted" (Dict.keys d)) by (apply Hk; cbn; tauto).
  assert (H2 : ~ In "date submitted" (Dict.keys d)) by (apply Hk; cbn; tauto).
  assert (H3 : ~ In "time submitted" (Dict.keys d)) by (apply Hk; cbn; tauto).
  assert (H4 : ~ In "form path" (Dict.keys d)) by (apply Hk; cbn; tauto).
  destruct (Text.mem "datetime" include), (Text.mem "date" include),
    (Text.mem "time" include), (Text.mem "path" include);
    rewrite ?dict_set_app by assumption; reflexivity.
Qed.

(** X17.  When no key of the sorted data is one of the four metadata
    keys, [sorted_data(include)] is the sorted data followed by the metadata
    asked for, always in the order timestamp, date, time, path: the order of
    the words in [include], their repetition and any other word in it change
    nothing. *)
Theorem sorted_data_meta_appended (table : list FormField.t)
    (self : FormSubmission.t) (include : list string)
    (items : Dict.t pyvalue) :
  FormSubmission.sorted_data table self = Return items ->
  (forall k, In k Meta.meta_keys -> ~ In k (Dict.keys items)) ->
  Meta.sorted_data table self include
  = Return (Meta.lift items ++ Meta.meta_entries self include)%list.
Proof.
  unfold FormSubmission.sorted_data, Meta.sorted_data.
  destruct (Eval.python_eval (FormSubmission.data self)) as [d|e];
    cbn [bind]; [|discriminate].
  intros [= <-] Hk. f_equal.
  rewrite <- (app_nil_r (Meta.lift _)) at 1.
  rewrite add_meta_app by (rewrite lift_keys; exact Hk).
  f_equal. unfold Meta.add_meta, Meta.meta_entries.
  destruct (Text.mem "datetime" include), (Text.mem "date" include),
    (Text.mem "time" include), (Text.mem "path" include); reflexivity.
Qed.

Lemma sorted_data_meta_appended_witness :
  Meta.sorted_data [Example.b_row; Example.a_row]
    (Example.submission (Repr.repr_dict Example.answers))
    ["path"; "bogus"; "datetime"; "path"]
  = Return [("A", Meta.Captured (PyUnicode "it's"));
            ("B", Meta.Captured (PyList ["p"; "q"]));
            ("c", Meta.Captured (PyBool true));
            ("submitted", Meta.DateTime 0);
            ("form path", Meta.Captured (PyUnicode "/contact/"))].
Proof.
  apply (sorted_data_meta_appended [Example.b_row; Example.a_row]
           (Example.submission (Repr.repr_dict Example.answers))
           ["path"; "bogus"; "datetime"; "path"]
           [("A", PyUnicode "it's"); ("B", PyList ["p"; "q"]);
            ("c", PyBool true)]).
  - reflexivity.
  - cbn. intros k [<-|[<-|[<-|[<-|[]]]]]; intuition discriminate.
Defined.

(** X18.  A metadata key asked for always holds the metadata, also when a
    field title or a stored key is spelled the same: the metadata replaces
    that entry's value.  Every other key keeps the value [sorted_data()]
    gives it. *)
Theorem sorted_data_meta_lookup (table : list FormField.t)
    (self : FormSubmission.t) (include : list string)
    (items : Dict.t pyvalue) :
  FormSubmission.sorted_data table self = Return items ->
  exists cells,
    Meta.sorted_data table self include = Return cells
    /\ forall k,
         Dict.get k cells
         = match Dict.get k (Meta.meta_entries self include) with
           | Some c => Some c
           | None => option_map Meta.Captured (Dict.get k items)
           end.
Proof.
  unfold FormSubmission.sorted_data, Meta.sorted_data.
  destruct (Eval.python_eval (FormSubmission.data self)) as [d|e];
    cbn [bind]; [|discriminate].
  intros [= <-]. eexists. split; [reflexivity|]. intros k.
  unfold Meta.add_meta, Meta.meta_entries.
  destruct (Text.mem "datetime" include), (Text.mem "date" include),
    (Text.mem "time" include), (Text.mem "path" include);
    rewrite ?dict_get_set, lift_get; cbn [app Dict.get];
    destruct (String.eqb_spec k "form path") as [E1|N1];
    destruct (String.eqb_spec k "time submitted") as [E2|N2];
    destruct (String.eqb_spec k "date submitted") as [E3|N3];
    destruct (String.eqb_spec k "submitted") as [E4|N4];
    first [reflexivity | congruence].
Qed.

Lemma sorted_data_meta_lookup_witness :
  exists cells,
    Meta.sorted_data
      [Example.field 1 0 "p" "form path" FormField.text "" true]
      (Example.submission (Repr.repr_dict [("p", PyUnicode "typed")]))
      ["path"]
    = Return cells
    /\ Dict.get "form path" cells
       = Some (Meta.Captured (PyUnicode "/contact/")).
Proof.
  destruct (sorted_data_meta_lookup
              [Example.field 1 0 "p" "form path" FormField.text "" true]
              (Example.submission (Repr.repr_dict [("p", PyUnicode "typed")]))
              ["path"] [("form path", PyUnicode "typed")] eq_refl)
    as [cells [Hc Hget]].
  exists cells. split; [exact Hc|]. rewrite Hget. reflexivity.
Defined.

(** ** The stored text *)

Lemma escape_char_printable (q c : ascii) :
  q = Text.squote \/ q = Text.dquote ->
  Text.all_chars Charset.is_printable (Repr.escape_char q c) = true.
Proof.
  intros [->| ->]; destruct c as [[] [] [] [] [] [] [] []]; reflexivity.
Qed.

Lemma all_chars_flat_map (p : ascii -> bool) (f : ascii -> string) (s : string) :
  (forall c, Text.all_chars p (f c) = true) ->
  Text.all_chars p (Text.flat_map f s) = true.
Proof.
  intros Hf. induction s as [|c s IH]; cbn [Text.flat_map]; [reflexivity|].
  now rewrite all_chars_append, Hf, IH.
Qed.

Lemma repr_unicode_printable (s : string) :
  Text.all_chars Charset.is_printable (Repr.repr_unicode s) = true.
Proof.
  unfold Repr.repr_unicode. pose proof (quote_for_cases s) as Hq.
  set (q := Repr.quote_for s) in *.
  cbn [Text.all_chars]. rewrite all_chars_append, all_chars_flat_map
    by (intros c; now apply escape_char_printable).
  destruct Hq as [-> | ->]; reflexivity.
Qed.

Lemma join_comma_printable (pieces : list string) :
  Forall (fun p => Text.all_chars Charset.is_printable p = true) pieces ->
  Text.all_chars Charset.is_printable (Repr.join_comma pieces) = true.
Proof.
  induction 1 as [|p pieces Hp _ IH]; [reflexivity|].
  destruct pieces as [|p' r]; [exact Hp|].
  change (Repr.join_comma (p :: p' :: r))
    with (p ++ ", " ++ Repr.join_comma (p' :: r)).
  now rewrite !all_chars_append, Hp, IH.
Qed.

Lemma repr_value_printable (v : pyvalue) :
  Text.all_chars Charset.is_printable (Repr.repr_value v) = true.
Proof.
  destruct v as [|[|]|s|items]; try reflexivity.
  - apply repr_unicode_printable.
  - cbn [Repr.repr_value]. unfold Repr.repr_list.
    rewrite !all_chars_append, join_comma_printable; [reflexivity|].
    apply Forall_map, Forall_forall. intros x _. apply repr_unicode_printable.
Qed.

(** X19.  The text [process] stores in the [data] of the row it creates
    is printable ASCII, whatever characters the keys and values of the
    cleaned data hold. *)
Theorem stored_text_printable (conf : settings) (deliver : mail -> bool)
    (self : Form.t) (form : Form.form_instance) (req : Form.request)
    (w : world) :
  exists row,
    submissions (fst (Form.process conf deliver self form req w))
    = (submissions w ++ [row])%list
    /\ Text.all_chars Charset.is_printable (FormSubmission.data row) = true.
Proof.
  eexists. split; [apply process_submissions|].
  cbn [FormSubmission.data]. unfold Repr.repr_dict.
  rewrite !all_chars_append, join_comma_printable; [reflexivity|].
  apply Forall_map, Forall_forall. intros [k v] _. unfold Repr.repr_entry.
  cbn [fst snd].
  now rewrite !all_chars_append, repr_unicode_printable, repr_value_printable.
Qed.

(** X20.  Two different mappings are never stored as the same text: the
    serialization of dicts is injective. *)
Theorem repr_dict_injective (d d' : pydict) :
  Dict.wf d -> Dict.wf d' ->
  Repr.repr_dict d = Repr.repr_dict d' -> d = d'.
Proof.
  intros Hd Hd' H.
  pose proof (eval_repr_dict d Hd) as E. rewrite H in E.
  rewrite (eval_repr_dict d' Hd') in E. now injection E.
Qed.

Lemma repr_dict_injective_witness :
  Example.answers
  = [("a", PyUnicode "it's"); ("b", PyList ["p"; "q"]); ("c", PyBool true)].
Proof.
  apply (repr_dict_injective Example.answers
           [("a", PyUnicode "it's"); ("b", PyList ["p"; "q"]);
            ("c", PyBool true)]).
  - exact answers_wf.
  - exact answers_wf.
  - reflexivity.
Defined.

(** ** FormContent *)

Lemma process_formfields (conf : settings) (deliver : mail -> bool)
    (self : Form.t) (form : Form.form_instance) (req : Form.request)
    (w : world) :
  formfields (fst (Form.process conf deliver self form req w)) = formfields w.
Proof.
  unfold Form.process. cbn [create_submission].
  destruct (Dict.mem "email" (Form.config self)); [|reflexivity].
  destruct (FormSubmission.formatted_data _ _ _ _); [|reflexivity].
  destruct (bind _ _); [|reflexivity].
  unfold send_mail. destruct (deliver _); reflexivity.
Qed.

Lemma process_mail_attempts (conf : settings) (deliver : mail -> bool)
    (self : Form.t) (form : Form.form_instance) (req : Form.request)
    (w : world) :
  exists sent,
    mail_attempts (fst (Form.process conf deliver self form req w))
    = (mail_attempts w ++ sent)%list
    /\ length sent <= 1.
Proof.
  unfold Form.process. cbn [create_submission].
  destruct (Dict.mem "email" (Form.config self));
    [|exists []; cbn; rewrite app_nil_r; auto].
  destruct (FormSubmission.formatted_data _ _ _ _);
    [|exists []; cbn; rewrite app_nil_r; auto].
  destruct (bind _ _); [|exists []; cbn; rewrite app_nil_r; auto].
  unfold send_mail. destruct (deliver _); eexists; cbn; split;
    first [reflexivity | auto].
Qed.

Lemma process_result (conf : settings) (deliver : mail -> bool)
    (self : Form.t) (form : Form.form_instance) (req : Form.request)
    (w : world) :
  Spec.email_option_complete (Form.config self) ->
  snd (Form.process conf deliver self form req w)
  = Return (if Dict.mem "email" (Form.config self)
            then Some Form.acknowledgement else None).
Proof.
  intros Hcomplete. unfold Form.process. cbn [create_submission].
  destruct (Dict.mem "email" (Form.config self)) eqn:Hmem; [|reflexivity].
  match goal with
  | |- context [FormSubmission.formatted_data ?c ?t ?s false] =>
      destruct (formatted_data_of_repr c t s (Form.cleaned_data form) false
                  eq_refl) as [body Hbody]
  end.
  cbn [formfields] in *. rewrite Hbody.
  unfold Dict.mem in Hmem.
  destruct (Dict.get "email" (Form.config self)) as [options|] eqn:Hopt;
    [|discriminate].
  pose proof (Hcomplete options Hopt) as Haddr. unfold Dict.mem in Haddr.
  destruct (Dict.get "email" options) as [address|] eqn:Ha; [|discriminate].
  unfold Dict.item. rewrite Hopt. cbn [bind]. rewrite Ha.
  unfold send_mail. destruct (deliver _); reflexivity.
Qed.

(** X21.  [render] never changes the field rows, and changes the world
    only for a POST request whose bound form is valid: it then adds exactly
    one submission, holding the cleaned data and the request's path, and
    attempts at most one message.  A request of any other method and a POST
    with invalid data leave the world as it was. *)
Theorem render_writes (conf : settings) (FORM_CLASSES : list pyclass)
    (validate : FormContent.form_instance -> option pydict)
    (deliver : mail -> bool) (self : FormContent.t)
    (req : FormContent.request) (w : world) :
  formfields (fst (FormContent.render conf FORM_CLASSES validate deliver
                     self req w))
  = formfields w
  /\ (fst (FormContent.render conf FORM_CLASSES validate deliver self req w)
      = w
      \/ (FormContent.method req = "POST"
          /\ exists instance cleaned_data sent,
               validate instance = Some cleaned_data
               /\ FormContent.data instance = Some (FormContent.POST req)
               /\ submissions
                    (fst (FormContent.render conf FORM_CLASSES validate
                            deliver self req w))
                  = (submissions w
                     ++ [{| FormSubmission.id := next_id (submissions w);
                            FormSubmission.submitted := clock w;
                            FormSubmission.form :=
                              Form.pk (FormContent.form self);
                            FormSubmission.data := Repr.repr_dict cleaned_data;
                            FormSubmission.path := FormContent.path req |}])%list
               /\ mail_attempts
                    (fst (FormContent.render conf FORM_CLASSES validate
                            deliver self req w))
                  = (mail_attempts w ++ sent)%list
               /\ length sent <= 1))
  /\ (FormContent.method req <> "POST" ->
      fst (FormContent.render conf FORM_CLASSES validate deliver self req w)
      = w)
  /\ ((forall instance, validate instance = None) ->
      fst (FormContent.render conf FORM_CLASSES validate deliver self req w)
      = w).
Proof.
  unfold FormContent.render.
  destruct (Form.form FORM_CLASSES (formfields w) (FormContent.form self))
    as [cls|e]; [|cbn [fst]; repeat split; auto].
  destruct (String.eqb_spec (FormContent.method req) "POST") as [Hm|Hm];
    [|cbn [fst]; repeat split; auto].
  match goal with
  | |- context [validate ?i] => set (instance := i)
  end.
  destruct (validate instance) as [cleaned|] eqn:Hv;
    [|cbn [fst]; repeat split; auto].
  unfold FormContent.process_valid_form.
  pose proof (process_submissions conf deliver (FormContent.form self)
                {| Form.cleaned_data := cleaned |}
                {| Form.path := FormContent.path req |} w) as Hs.
  pose proof (process_formfields conf deliver (FormContent.form self)
                {| Form.cleaned_data := cleaned |}
                {| Form.path := FormContent.path req |} w) as Hf.
  destruct (process_mail_attempts conf deliver (FormContent.form self)
              {| Form.cleaned_data := cleaned |}
              {| Form.path := FormContent.path req |} w) as [sent [Hsent Hlen]].
  destruct (Form.process conf deliver (FormContent.form self) _ _ w)
    as [w' [result|e]]; cbn [fst snd] in *.
  - split; [exact Hf|]. split; [|split].
    + right. split; [exact Hm|]. exists instance, cleaned, sent.
      repeat split; try assumption.
    + intros H. contradiction.
    + intros H. rewrite H in Hv. discriminate.
  - split; [exact Hf|]. split; [|split].
    + right. split; [exact Hm|]. exists instance, cleaned, sent.
      repeat split; try assumption.
    + intros H. contradiction.
    + intros H. rewrite H in Hv. discriminate.
Qed.

(** X22.  After a valid POST to a form whose [email] option is complete,
    the page shows the content's own success message when it has one;
    otherwise the acknowledgement of [process] when the form notifies by
    mail; otherwise the empty text. *)
Theorem render_message (conf : settings) (FORM_CLASSES : list pyclass)
    (validate : FormContent.form_instance -> option pydict)
    (deliver : mail -> bool) (self : FormContent.t)
    (req : FormContent.request) (w : world)
    (cls : Form.form_class) (cleaned_data : pydict) :
  Form.form FORM_CLASSES (formfields w) (FormContent.form self) = Return cls ->
  FormContent.method req = "POST" ->
  validate {| FormContent.form_class := cls;
              FormContent.request_arg :=
                if FORM_TAKES_REQUEST conf then Some req else None;
              FormContent.data := Some (FormContent.POST req);
              FormContent.prefix :=
                "fc" ++ Text.decimal (FormContent.id self) |}
  = Some cleaned_data ->
  Spec.email_option_complete (Form.config (FormContent.form self)) ->
  snd (FormContent.render conf FORM_CLASSES validate deliver self req w)
  = Return
      {| FormContent.page_template := "content/form/form.html";
         FormContent.page_request := req;
         FormContent.page_context :=
           FormContent.WithMessage self
             (if negb (Text.is_empty (FormContent.success_message self))
              then FormContent.success_message self
              else if Dict.mem "email" (Form.config (FormContent.form self))
                   then "Thank you, your input has been received."
                   else EmptyString) |}.
Proof.
  intros Hform Hm Hv Hcomplete. unfold FormContent.render.
  rewrite Hform, Hm. cbn [String.eqb Ascii.eqb Bool.eqb]. rewrite Hv.
  unfold FormContent.process_valid_form.
  pose proof (process_result conf deliver (FormContent.form self)
                {| Form.cleaned_data := cleaned_data |}
                {| Form.path := FormContent.path req |} w Hcomplete) as Hr.
  destruct (Form.process conf deliver (FormContent.form self) _ _ w)
    as [w' r]. cbn [snd] in *. rewrite Hr. cbn [snd].
  unfold FormContent.first_nonempty, FormContent.template.
  destruct (Text.is_empty (FormContent.success_message self)); cbn [negb];
    [|reflexivity].
  destruct (Dict.mem "email" (Form.config (FormContent.form self)));
    reflexivity.
Qed.

Lemma render_message_witness :
  snd (FormContent.render (Example.conf None []) [forms_Form]
         (fun _ => Some Sample.cleaned) (fun _ => false)
         Sample.content Sample.post_request Example.world0)
  = Return
      {| FormContent.page_template := "content/form/form.html";
         FormContent.page_request := Sample.post_request;
         FormContent.page_context :=
           FormContent.WithMessage Sample.content "Thanks!" |}.
Proof.
  eapply (render_message (Example.conf None []) [forms_Form]
            (fun _ => Some Sample.cleaned) (fun _ => false)
            Sample.content Sample.post_request Example.world0).
  - reflexivity.
  - reflexivity.
  - reflexivity.
  - exact contact_config_complete.
Defined.



